(** * DFT-D4 harness of QCEngine: a shallow embedding and its properties

    Source: [qcengine/programs/dftd4.py], class [DFTD4Harness].

    The harness is a thin adapter.  It probes for the [dftd4] Python package,
    caches its version string, and in [compute] normalises the method name and
    the keywords of a request, hands the request to [dftd4]'s own
    [run_qcschema], and annotates the result with derived quantities.

    Everything the harness calls but does not define (the import probe, the
    plan resolver [from_arrays], the alias table [get_dispersion_aliases], the
    backend entry point [run_qcschema], numpy's array sum) is gathered in the
    record [Env]; the harness is embedded once, for an arbitrary [Env]. *)

From Stdlib Require Import String Ascii PrimFloat ZArith Bool Arith Lia.
From stdpp Require Import gmap strings list fin_maps.

Set Warnings "-register-all,-inexact-float".

Local Open Scope string_scope.

(** ** Python strings

    Method names, keys and aliases are ASCII identifiers; [str] is embedded as
    [string], and [lower]/[upper] act on the ASCII letters only. *)

Module PyStr.

(** [s.startswith(p)] *)
Definition startswith (s p : string) : bool := String.prefix p s.

(** [s[n:]] for a non-negative [n] *)
Fixpoint slice_from (n : nat) (s : string) : string :=
  match n, s with
  | O, _ => s
  | S n', String _ s' => slice_from n' s'
  | S _, EmptyString => EmptyString
  end.

(** [s[:-k]] for a positive [k]: the stop index is [len(s) - k], clipped at 0 *)
Definition slice_to_neg (k : nat) (s : string) : string :=
  String.substring 0 (String.length s - k) s.

(** [s.endswith(suf)] *)
Definition endswith (s suf : string) : bool :=
  (String.length suf <=? String.length s)%nat
  && String.eqb (slice_from (String.length s - String.length suf) s) suf.

Definition lower_ascii (c : ascii) : ascii :=
  let n := nat_of_ascii c in
  if ((65 <=? n) && (n <=? 90))%nat then ascii_of_nat (n + 32) else c.

Definition upper_ascii (c : ascii) : ascii :=
  let n := nat_of_ascii c in
  if ((97 <=? n) && (n <=? 122))%nat then ascii_of_nat (n - 32) else c.

Fixpoint map_ascii (f : ascii -> ascii) (s : string) : string :=
  match s with
  | EmptyString => EmptyString
  | String c s' => String (f c) (map_ascii f s')
  end.

(** [s.lower()] and [s.upper()] *)
Definition lower : string -> string := map_ascii lower_ascii.
Definition upper : string -> string := map_ascii upper_ascii.

(** truth value of a [str]: non-empty *)
Definition nonempty (s : string) : bool :=
  match s with EmptyString => false | String _ _ => true end.

End PyStr.

(** ** Python values

    The values that travel through [keywords], [extras] and the result: JSON
    like data plus numpy arrays (kept as their flattened float64 data; the
    harness only sums them or passes them on). *)

Inductive pyval : Type :=
| VNone
| VBool (b : bool)
| VInt (z : Z)
| VFloat (f : float)
| VStr (s : string)
| VArr (a : list float)
| VList (l : list pyval)
| VDict (d : gmap string pyval).

(** ** Exceptions and results *)

Inductive exn : Type :=
| ModuleNotFoundError (msg : string)
| InputError (msg : string)
| KeyError (key : string)
| TypeError
| AttributeError
| IndexError
| ValueError
| AssertionError
| OtherError (name : string).

Inductive result (A : Type) : Type :=
| Ok (a : A)
| Raise (e : exn).

Arguments Ok {A} a.
Arguments Raise {A} e.

(** ** Request and result schema (the fields the harness touches) *)

Inductive Driver : Type := energy | gradient | hessian | properties.

Record AtomicInput : Type := mkAtomicInput {
  molecule : pyval;
  driver : Driver;
  model_method : string;                 (* input_model.model.method *)
  keywords : gmap string pyval;
  extras : gmap string pyval;
}.

Record AtomicResult : Type := mkAtomicResult {
  return_energy : option float;          (* output.properties.return_energy *)
  return_result : pyval;
  out_extras : gmap string pyval;        (* output.extras *)
}.

(** Writes into the working copy [input_data]. *)
Definition set_method (d : AtomicInput) (m : string) : AtomicInput :=
  {| molecule := molecule d; driver := driver d; model_method := m;
     keywords := keywords d; extras := extras d |}.

Definition set_extra (d : AtomicInput) (k : string) (v : pyval) : AtomicInput :=
  {| molecule := molecule d; driver := driver d; model_method := model_method d;
     keywords := keywords d; extras := <[k := v]> (extras d) |}.

Definition set_keyword (d : AtomicInput) (k : string) (v : pyval) : AtomicInput :=
  {| molecule := molecule d; driver := driver d; model_method := model_method d;
     keywords := <[k := v]> (keywords d); extras := extras d |}.

Definition set_out_extras (o : AtomicResult) (e : gmap string pyval) : AtomicResult :=
  {| return_energy := return_energy o; return_result := return_result o;
     out_extras := e |}.

(** [d.get(k, None)] *)
Definition dict_get (d : gmap string pyval) (k : string) : pyval :=
  default VNone (d !! k).

(** ** The world outside the harness *)

(** What the harness asks of its surroundings, in the order it asks. *)
Inductive event : Type :=
| EFound (raise_error : bool)
| EVersionRead                            (* dftd4.__version__ *)
| EFromArrays (name_hint : string) (level_hint param_tweaks dashcoeff_supplement : pyval)
| ERunQcschema (input_model : AtomicInput).

Record Env : Type := mkEnv {
  (** [which_import("dftd4")]: the origin of the module, [None] when absent *)
  which_import : option string;
  (** [dftd4.__version__] *)
  dftd4_version : string;
  (** [qcelemental.util.safe_version] *)
  safe_version : string -> string;
  (** [from_arrays(verbose=1, name_hint, level_hint, param_tweaks, dashcoeff_supplement)] *)
  from_arrays : string -> pyval -> pyval -> pyval -> result pyval;
  (** [get_dispersion_aliases().items()], in the dict's iteration order *)
  get_dispersion_aliases : list (string * string);
  (** [dftd4.qcschema.run_qcschema] *)
  run_qcschema : AtomicInput -> result AtomicResult;
  (** [ndarray.sum()] *)
  ndarray_sum : list float -> float;
}.

(** The mutable state: the class attribute [version_cache] and the log of
    calls made so far (oldest first). *)
Record world : Type := mkWorld {
  version_cache : gmap (option string) string;
  trace : list event;
}.

(** ** A state and exception monad *)

Definition M (A : Type) : Type := world -> result A * world.

Definition ret {A} (a : A) : M A := fun w => (Ok a, w).

Definition raise {A} (e : exn) : M A := fun w => (Raise e, w).

Definition bind {A B} (m : M A) (k : A -> M B) : M B :=
  fun w =>
    match m w with
    | (Ok a, w') => k a w'
    | (Raise e, w') => (Raise e, w')
    end.

Definition lift {A} (r : result A) : M A := fun w => (r, w).

(** The world after the calls [evs] were made. *)
Definition log (w : world) (evs : list event) : world :=
  {| version_cache := version_cache w; trace := trace w ++ evs |}.

Definition emit (ev : event) : M unit := fun w => (Ok tt, log w [ev]).

Definition get_cache : M (gmap (option string) string) :=
  fun w => (Ok (version_cache w), w).

Definition put_cache (c : gmap (option string) string) : M unit :=
  fun w => (Ok tt, {| version_cache := c; trace := trace w |}).

Declare Scope harness_scope.
Delimit Scope harness_scope with harness.
Notation "x <- m ;; k" := (bind m (fun x => k))
  (at level 100, m at next level, right associativity) : harness_scope.
Notation "m ;; k" := (bind m (fun _ => k))
  (at level 100, right associativity) : harness_scope.
Local Open Scope harness_scope.

(** ** The harness *)

Section Harness.

Context (E : Env).

Definition raise_msg : string :=
  "Please install via a dftd4 version with enabled Python API".

(** [DFTD4Harness.found]: [which_import("dftd4", return_bool=True, ...)] *)
Definition found (raise_error : bool) : M bool :=
  emit (EFound raise_error) ;;
  match which_import E with
  | Some _ => ret true
  | None => if raise_error then raise (ModuleNotFoundError raise_msg) else ret false
  end.

(** [DFTD4Harness.get_version] *)
Definition get_version : M string :=
  found true ;;
  let which_prog := which_import E in
  cache <- get_cache ;;
  (match cache !! which_prog with
   | None =>
       emit EVersionRead ;;
       put_cache (<[which_prog := safe_version E (dftd4_version E)]> cache)
   | Some _ => ret tt
   end) ;;
  cache <- get_cache ;;
  match cache !! which_prog with
  | Some v => ret v
  | None => raise (KeyError "which_prog")
  end.

(** *** [compute]

    The local variable [mtd] and the working copy [input_data] (the dict
    made by [input_model.dict()], a fresh copy that shares nothing with the
    request). *)
Record work : Type := mkWork {
  mtd : string;
  input_data : AtomicInput;
}.

(** Lines 70-75, "strip engine hint". *)
Definition strip_engine_hint (input_model : AtomicInput) : work :=
  let input_data := input_model in
  let mtd := model_method input_model in
  if PyStr.startswith mtd "d4-" then
    let mtd := PyStr.slice_from 3 mtd in
    {| mtd := mtd; input_data := set_method input_data mtd |}
  else
    {| mtd := mtd; input_data := input_data |}.

(** Line 80: [None if mtd else input_model.keywords.get("params_tweaks", None)] *)
Definition param_tweaks_of (input_model : AtomicInput) (mtd : string) : pyval :=
  if PyStr.nonempty mtd then VNone
  else dict_get (keywords input_model) "params_tweaks".

(** Lines 81-92: the call of [from_arrays] under [try/except InputError/else]. *)
Definition resolve_plan (input_model : AtomicInput) (wk : work) : M work :=
  let param_tweaks := param_tweaks_of input_model (mtd wk) in
  let level_hint := dict_get (keywords input_model) "level_hint" in
  let dashcoeff_supplement := dict_get (keywords input_model) "dashcoeff_supplement" in
  emit (EFromArrays (mtd wk) level_hint param_tweaks dashcoeff_supplement) ;;
  match from_arrays E (mtd wk) level_hint param_tweaks dashcoeff_supplement with
  | Ok planinfo =>
      ret {| mtd := mtd wk; input_data := set_extra (input_data wk) "info" planinfo |}
  | Raise (InputError _) => ret wk
  | Raise e => raise e
  end.

(** Lines 96-98: the body of the loop over the alias table. *)
Definition strip_level_step (wk : work) (item : string * string) : work :=
  let '(alias, d4) := item in
  if String.eqb d4 "d4bj" && PyStr.endswith (PyStr.lower (mtd wk)) alias then
    let mtd := PyStr.slice_to_neg (String.length alias + 1) (mtd wk) in
    {| mtd := mtd; input_data := set_method (input_data wk) mtd |}
  else wk.

(** Lines 95-98, "strip dispersion level from method". *)
Definition strip_dispersion_level (wk : work) : work :=
  fold_left strip_level_step (get_dispersion_aliases E) wk.

(** Truth value of a Python object, as [if level_hint] takes it. *)
Definition truthy (v : pyval) : result bool :=
  match v with
  | VNone => Ok false
  | VBool b => Ok b
  | VInt z => Ok (negb (z =? 0)%Z)
  | VFloat f => Ok (negb (PrimFloat.eqb f 0%float))
  | VStr s => Ok (PyStr.nonempty s)
  | VArr [] => Ok false
  | VArr [x] => Ok (negb (PrimFloat.eqb x 0%float))
  | VArr (_ :: _ :: _) => Raise ValueError
  | VList l => Ok (negb (Nat.eqb (length l) 0))
  | VDict d => Ok (negb (Nat.eqb (size d) 0))
  end.

(** [v.lower()] and [v.upper()]: only a [str] has them. *)
Definition str_lower (v : pyval) : result string :=
  match v with VStr s => Ok (PyStr.lower s) | _ => Raise AttributeError end.

Definition str_upper (v : pyval) : result string :=
  match v with VStr s => Ok (PyStr.upper s) | _ => Raise AttributeError end.

(** [get_dispersion_aliases()[key]] *)
Fixpoint alias_index (tbl : list (string * string)) (key : string) : result string :=
  match tbl with
  | [] => Raise (KeyError key)
  | (alias, d4) :: tbl' => if String.eqb alias key then Ok d4 else alias_index tbl' key
  end.

(** Lines 101-104, "consolidate dispersion level aliases". *)
Definition consolidate_level_hint (input_model : AtomicInput) (wk : work) : M work :=
  let level_hint := dict_get (keywords input_model) "level_hint" in
  t <- lift (truthy level_hint) ;;
  if (t : bool) then
    key <- lift (str_lower level_hint) ;;
    d4 <- lift (alias_index (get_dispersion_aliases E) key) ;;
    if String.eqb d4 "d4bj" then
      let level_hint := VStr "d4" in
      ret {| mtd := mtd wk;
             input_data := set_keyword (input_data wk) "level_hint" level_hint |}
    else ret wk
  else ret wk.

(** Line 109: [run_qcschema(input_model)] *)
Definition call_run_qcschema (input_model : AtomicInput) : M AtomicResult :=
  emit (ERunQcschema input_model) ;;
  lift (run_qcschema E input_model).

(** [d[key]] on a dict of values *)
Definition dict_index (d : gmap string pyval) (key : string) : result pyval :=
  match d !! key with Some v => Ok v | None => Raise (KeyError key) end.

(** [v[key]] with a [str] key on an arbitrary value *)
Definition subscript (v : pyval) (key : string) : result pyval :=
  match v with
  | VDict d => dict_index d key
  | VArr _ => Raise IndexError
  | _ => Raise TypeError
  end.

(** [v.sum()]: only an array has it. *)
Definition array_sum (v : pyval) : result float :=
  match v with VArr a => Ok (ndarray_sum E a) | _ => Raise AttributeError end.

(** The value of [output.properties.return_energy] ([Optional[float]]). *)
Definition energy_value (ene : option float) : pyval :=
  match ene with Some e => VFloat e | None => VNone end.

(** Line 135: [abs(pw2.sum() + pw3.sum() - ene) < 1.0e-8] *)
Definition pairwise_consistent (s2 s3 ene : float) : bool :=
  PrimFloat.ltb (PrimFloat.abs (PrimFloat.sub (PrimFloat.add s2 s3) ene)) 1.0e-8%float.

(** Lines 132-139: the [pair_resolved] block, extending [calcinfo]. *)
Definition pair_resolved_entries (input_model : AtomicInput) (output : AtomicResult)
    (calcinfo : gmap string pyval) : M (gmap string pyval) :=
  match keywords input_model !! "pair_resolved" with
  | Some (VBool true) =>
      d <- lift (dict_index (out_extras output) "dftd4") ;;
      pw2 <- lift (subscript d "additive pairwise energy") ;;
      d <- lift (dict_index (out_extras output) "dftd4") ;;
      pw3 <- lift (subscript d "non-additive pairwise energy") ;;
      s2 <- lift (array_sum pw2) ;;
      s3 <- lift (array_sum pw3) ;;
      ene <- (match return_energy output with
              | Some e => ret e
              | None => raise TypeError
              end) ;;
      if pairwise_consistent s2 s3 ene then
        let calcinfo := <["2-BODY DISPERSION CORRECTION ENERGY" := VFloat s2]> calcinfo in
        let calcinfo := <["3-BODY DISPERSION CORRECTION ENERGY" := VFloat s3]> calcinfo in
        let calcinfo := <["2-BODY PAIRWISE DISPERSION CORRECTION ANALYSIS" := pw2]> calcinfo in
        let calcinfo := <["3-BODY PAIRWISE DISPERSION CORRECTION ANALYSIS" := pw3]> calcinfo in
        ret calcinfo
      else raise AssertionError
  | _ => ret calcinfo
  end.

(** Lines 119-129: the energy and gradient entries of [calcinfo]. *)
Definition base_entries (input_model : AtomicInput) (output : AtomicResult)
    (qcvkey : string) : gmap string pyval :=
  let calcinfo : gmap string pyval := ∅ in
  let ene := energy_value (return_energy output) in
  let calcinfo := <["CURRENT ENERGY" := ene]> calcinfo in
  let calcinfo := <["DISPERSION CORRECTION ENERGY" := ene]> calcinfo in
  let calcinfo :=
    if PyStr.nonempty qcvkey
    then <[qcvkey +:+ " DISPERSION CORRECTION ENERGY" := ene]> calcinfo
    else calcinfo in
  match driver input_model with
  | gradient =>
      let grad := return_result output in
      let calcinfo := <["CURRENT GRADIENT" := grad]> calcinfo in
      let calcinfo := <["DISPERSION CORRECTION GRADIENT" := grad]> calcinfo in
      if PyStr.nonempty qcvkey
      then <[qcvkey +:+ " DISPERSION CORRECTION GRADIENT" := grad]> calcinfo
      else calcinfo
  | _ => calcinfo
  end.

(** Line 112: [output.extras.update(input_model.extras)]; on a key of both
    dicts the value of the argument replaces the one that was there. *)
Definition merge_extras (input_model : AtomicInput) (output : AtomicResult) : AtomicResult :=
  set_out_extras output (extras input_model ∪ out_extras output).

(** Lines 111-143: merge the request's extras and attach ["qcvars"]. *)
Definition annotate (input_model : AtomicInput) (output : AtomicResult) : M AtomicResult :=
  let output := merge_extras input_model output in
  match extras input_model !! "info" with
  | Some info =>
      fctldash <- lift (subscript info "fctldash") ;;
      qcvkey <- lift (str_upper fctldash) ;;
      let calcinfo := base_entries input_model output qcvkey in
      calcinfo <- pair_resolved_entries input_model output calcinfo ;;
      ret (set_out_extras output (<["qcvars" := VDict calcinfo]> (out_extras output)))
  | None => ret output
  end.

(** Lines 70-106: from the request to the request handed to the backend.
    Line 106 rebuilds an [AtomicInput] from [input_data], a dict that came
    from a valid [AtomicInput] and had only string and dict entries
    replaced, so the rebuilt request has the fields of [input_data]. *)
Definition prepare (input_model : AtomicInput) : M AtomicInput :=
  let wk := strip_engine_hint input_model in
  wk <- resolve_plan input_model wk ;;
  let wk := strip_dispersion_level wk in
  wk <- consolidate_level_hint input_model wk ;;
  ret (input_data wk).

(** [DFTD4Harness.compute].  The [config] argument is never used and is left
    out. *)
Definition compute (input_model : AtomicInput) : M AtomicResult :=
  found true ;;
  input_model <- prepare input_model ;;
  output <- call_run_qcschema input_model ;;
  annotate input_model output.

End Harness.

(** ** Properties *)

(** Number of reads of [dftd4.__version__] in a log. *)
Definition is_version_read (ev : event) : bool :=
  match ev with EVersionRead => true | _ => false end.

Definition version_reads (tr : list event) : nat :=
  length (List.filter is_version_read tr).

(** ** Derived notions used to state the properties *)

(** The call of [from_arrays] that lines 82-88 make when the method is [mtd],
    and what the resolver answers to it. *)
Definition resolver_call (input_model : AtomicInput) (mtd : string) : event :=
  EFromArrays mtd (dict_get (keywords input_model) "level_hint")
    (param_tweaks_of input_model mtd)
    (dict_get (keywords input_model) "dashcoeff_supplement").

Definition resolver_result (E : Env) (input_model : AtomicInput) (mtd : string) : result pyval :=
  from_arrays E mtd (dict_get (keywords input_model) "level_hint")
    (param_tweaks_of input_model mtd)
    (dict_get (keywords input_model) "dashcoeff_supplement").

(** The exception kind that [except InputError] catches. *)
Definition is_input_error (e : exn) : bool :=
  match e with InputError _ => true | _ => false end.

(** The working copy after lines 81-92, given the resolver's answer [r]: the
    plan is stored under ["info"] when there is one. *)
Definition stash_plan (r : result pyval) (wk : work) : work :=
  match r with
  | Ok planinfo => {| mtd := mtd wk; input_data := set_extra (input_data wk) "info" planinfo |}
  | Raise _ => wk
  end.

(** What lines 81-92 make of the resolver's answer [r]: the working copy with
    the plan stored, the working copy as it was after [InputError], or the
    exception. *)
Definition plan_outcome (r : result pyval) (wk : work) : result work :=
  match r with
  | Ok planinfo =>
      Ok {| mtd := mtd wk; input_data := set_extra (input_data wk) "info" planinfo |}
  | Raise e => if is_input_error e then Ok wk else Raise e
  end.

(** The exception that leaves the [try] statement of lines 81-92, if any. *)
Definition propagated (r : result pyval) : option exn :=
  match r with
  | Ok _ => None
  | Raise e => if is_input_error e then None else Some e
  end.

(** A computation that neither reads nor writes the world. *)
Definition pure_M {A} (m : M A) : Prop := exists r, forall w, m w = (r, w).

Definition is_delegate_call (ev : event) : bool :=
  match ev with ERunQcschema _ => true | _ => false end.

(** Number of calls of [run_qcschema] in a log. *)
Definition delegate_calls (tr : list event) : nat :=
  length (List.filter is_delegate_call tr).

(** The claim that the request's extras win: every key of the rebuilt
    request's extras is a key of the extras [compute] returns, and a key that
    the backend's result has too ends up with the request's value. *)
Definition request_extras_win (E : Env) (input_model : AtomicInput) (w : world) : Prop :=
  forall im' output final key v,
    (prepare E input_model w).1 = Ok im' ->
    run_qcschema E im' = Ok output ->
    (compute E input_model w).1 = Ok final ->
    extras im' !! key = Some v ->
    is_Some (out_extras final !! key) /\
    (is_Some (out_extras output !! key) -> out_extras final !! key = Some v).

(** ** A concrete environment

    A small stand-in for the [dftd4] package, used to run the harness on
    concrete requests. *)

Module Demo.

(** An alias table of the shape the harness expects: lowercase alias to
    canonical dispersion level. *)
Definition aliases : list (string * string) :=
  [("d2", "d2"); ("d3zero", "d3zero"); ("d3bj", "d3bj"); ("d4bj", "d4bj");
   ("d3", "d3zero"); ("d4", "d4bj")].

(** A resolver that rejects the functional ["bogus"] as invalid input, breaks
    on ["crash"], and otherwise labels the plan with the functional name. *)
Definition resolver (name_hint : string) (level_hint param_tweaks supplement : pyval)
    : result pyval :=
  if String.eqb name_hint "bogus" then Raise (InputError "unknown functional")
  else if String.eqb name_hint "crash" then Raise (OtherError "RuntimeError")
  else Ok (VDict {[ "fctldash" := VStr (name_hint +:+ "-d4") ]}).

Definition pairwise : gmap string pyval :=
  <["additive pairwise energy" := VArr [(-0.5)%float; (-0.25)%float]]>
    (<["non-additive pairwise energy" := VArr [0.125%float]]> ∅).

Definition backend_extras : gmap string pyval :=
  <["dftd4" := VDict pairwise]> (<["qcvars" := VStr "backend"]> ∅).

(** A backend that reports the energy [ene] whatever the request. *)
Definition backend (ene : float) (input_model : AtomicInput) : result AtomicResult :=
  Ok {| return_energy := Some ene;
        return_result :=
          match driver input_model with
          | gradient => VArr [0%float; 0%float; 0%float]
          | _ => VFloat ene
          end;
        out_extras := backend_extras |}.

Definition env (ene : float) : Env :=
  {| which_import := Some "site-packages/dftd4/__init__.py";
     dftd4_version := "3.5.0";
     safe_version := fun v => v;
     from_arrays := resolver;
     get_dispersion_aliases := aliases;
     run_qcschema := backend ene;
     ndarray_sum := fun a => fold_left PrimFloat.add a 0%float |}.

Definition world0 : world := {| version_cache := ∅; trace := [] |}.

Definition request (m : string) (d : Driver) (kw ex : gmap string pyval) : AtomicInput :=
  {| molecule := VNone; driver := d; model_method := m; keywords := kw; extras := ex |}.

(** The same environment without the [dftd4] package. *)
Definition absent : Env :=
  {| which_import := None;
     dftd4_version := "";
     safe_version := fun v => v;
     from_arrays := resolver;
     get_dispersion_aliases := aliases;
     run_qcschema := backend 0%float;
     ndarray_sum := fun a => fold_left PrimFloat.add a 0%float |}.

(** The same environment after the package was replaced in place by a newer
    one: same origin, other version. *)
Definition upgraded : Env :=
  {| which_import := Some "site-packages/dftd4/__init__.py";
     dftd4_version := "3.6.0";
     safe_version := fun v => v;
     from_arrays := resolver;
     get_dispersion_aliases := aliases;
     run_qcschema := backend 0%float;
     ndarray_sum := fun a => fold_left PrimFloat.add a 0%float |}.

(** The same environment with a backend that rejects every request. *)
Definition failing : Env :=
  {| which_import := Some "site-packages/dftd4/__init__.py";
     dftd4_version := "3.5.0";
     safe_version := fun v => v;
     from_arrays := resolver;
     get_dispersion_aliases := aliases;
     run_qcschema := fun _ => Raise (OtherError "ValidationError");
     ndarray_sum := fun a => fold_left PrimFloat.add a 0%float |}.

(** The same environment with a backend whose result has an energy and no
    extras at all. *)
Definition bare : Env :=
  {| which_import := Some "site-packages/dftd4/__init__.py";
     dftd4_version := "3.5.0";
     safe_version := fun v => v;
     from_arrays := resolver;
     get_dispersion_aliases := aliases;
     run_qcschema :=
       fun _ => Ok {| return_energy := Some 0%float; return_result := VFloat 0%float;
                      out_extras := ∅ |};
     ndarray_sum := fun a => fold_left PrimFloat.add a 0%float |}.

(** The same environment with a resolver that answers with the tweaks it was
    given: its plan shows what [from_arrays] was applied to. *)
Definition tweaked : Env :=
  {| which_import := Some "site-packages/dftd4/__init__.py";
     dftd4_version := "3.5.0";
     safe_version := fun v => v;
     from_arrays :=
       fun name_hint _ param_tweaks _ =>
         Ok (VDict {[ "fctldash" := VStr name_hint; "tweaks" := param_tweaks ]});
     get_dispersion_aliases := aliases;
     run_qcschema := backend 0%float;
     ndarray_sum := fun a => fold_left PrimFloat.add a 0%float |}.

End Demo.

(** * Properties *)

(** ** Strings *)

Section StringFacts.

Import PyStr.

Lemma strlen_app (a b : string) :
  String.length (a +:+ b) = String.length a + String.length b.
Proof. induction a as [|c a IH]; simpl; [reflexivity | now rewrite IH]. Qed.

Lemma str_app_assoc (a b c : string) : (a +:+ b) +:+ c = a +:+ (b +:+ c).
Proof.
  induction a as [|x a IH]; [reflexivity|].
  change (String x ((a +:+ b) +:+ c) = String x (a +:+ (b +:+ c))).
  now rewrite IH.
Qed.

Lemma slice_from_app (a b : string) : slice_from (String.length a) (a +:+ b) = b.
Proof. induction a as [|c a IH]; simpl; [now destruct b | exact IH]. Qed.

Lemma substring_app (a b : string) : String.substring 0 (String.length a) (a +:+ b) = a.
Proof.
  induction a as [|c a IH]; simpl.
  - now destruct b.
  - now rewrite IH.
Qed.

Lemma map_ascii_app f (a b : string) : map_ascii f (a +:+ b) = map_ascii f a +:+ map_ascii f b.
Proof. induction a as [|c a IH]; simpl; [reflexivity | now rewrite IH]. Qed.

Lemma map_ascii_length f (a : string) : String.length (map_ascii f a) = String.length a.
Proof. induction a as [|c a IH]; simpl; [reflexivity | now rewrite IH]. Qed.

Lemma endswith_app (a b : string) : endswith (a +:+ b) b = true.
Proof.
  unfold endswith. rewrite strlen_app.
  replace (String.length a + String.length b - String.length b) with (String.length a) by lia.
  rewrite slice_from_app, String.eqb_refl, andb_true_r.
  apply Nat.leb_le. lia.
Qed.

Lemma slice_to_neg_app (a b : string) (k : nat) :
  String.length b = k -> slice_to_neg k (a +:+ b) = a.
Proof.
  intros <-. unfold slice_to_neg. rewrite strlen_app.
  replace (String.length a + String.length b - String.length b) with (String.length a) by lia.
  apply substring_app.
Qed.

Lemma startswith_app (p s : string) : startswith (p +:+ s) p = true.
Proof.
  unfold startswith. induction p as [|c p IH]; simpl.
  - now destruct s.
  - destruct (Ascii.ascii_dec c c); [exact IH | congruence].
Qed.

Lemma lower_upper_ascii (c : ascii) : lower_ascii (upper_ascii c) = lower_ascii c.
Proof. destruct c as [[] [] [] [] [] [] [] []]; vm_compute; reflexivity. Qed.

Lemma lower_upper (s : string) : lower (upper s) = lower s.
Proof.
  induction s as [|c s IH]; simpl; [reflexivity|].
  unfold lower, upper in *. simpl. now rewrite lower_upper_ascii, IH.
Qed.

Lemma nonempty_false (s : string) : nonempty s = false <-> s = "".
Proof. destruct s; simpl; split; congruence. Qed.

End StringFacts.

(** ** Logs *)

Lemma version_reads_app (tr tr' : list event) :
  version_reads (tr ++ tr') = version_reads tr + version_reads tr'.
Proof. unfold version_reads. now rewrite List.filter_app, length_app. Qed.

Lemma delegate_calls_app (tr tr' : list event) :
  delegate_calls (tr ++ tr') = delegate_calls tr + delegate_calls tr'.
Proof. unfold delegate_calls. now rewrite List.filter_app, length_app. Qed.

(** ** The version cache *)

Section VersionCache.

Context (E : Env).

(** What [get_version] does when the cache has no entry for the backend. *)
Lemma get_version_miss (p : string) (w : world) :
  which_import E = Some p ->
  version_cache w !! Some p = None ->
  get_version E w =
    (Ok (safe_version E (dftd4_version E)),
     {| version_cache := <[Some p := safe_version E (dftd4_version E)]> (version_cache w);
        trace := trace w ++ [EFound true; EVersionRead] |}).
Proof.
  intros Hp Hmiss.
  unfold get_version, found, bind, emit, log, get_cache, put_cache, ret; simpl.
  rewrite Hp; simpl. rewrite Hmiss; simpl.
  rewrite lookup_insert_eq. now rewrite <- app_assoc.
Qed.

(** What [get_version] does when the cache already has the entry. *)
Lemma get_version_hit (p v : string) (w : world) :
  which_import E = Some p ->
  version_cache w !! Some p = Some v ->
  get_version E w =
    (Ok v, {| version_cache := version_cache w; trace := trace w ++ [EFound true] |}).
Proof.
  intros Hp Hhit.
  unfold get_version, found, bind, emit, log, get_cache, put_cache, ret; simpl.
  rewrite Hp; simpl. rewrite Hhit; simpl. rewrite Hhit. reflexivity.
Qed.

End VersionCache.



(** ** The monad: computations that leave the world alone *)

Lemma pure_ret {A} (a : A) : pure_M (ret a).
Proof. now exists (Ok a). Qed.

Lemma pure_raise {A} (e : exn) : pure_M (@raise A e).
Proof. now exists (Raise e). Qed.

Lemma pure_lift {A} (r : result A) : pure_M (lift r).
Proof. now exists r. Qed.

Lemma pure_bind {A B} (m : M A) (k : A -> M B) :
  pure_M m -> (forall a, pure_M (k a)) -> pure_M (bind m k).
Proof.
  intros [[a|e] Hr] Hk.
  - destruct (Hk a) as [r' Hr']. exists r'. intros w. unfold bind. rewrite Hr. apply Hr'.
  - exists (Raise e). intros w. unfold bind. now rewrite Hr.
Qed.

Lemma pure_world {A} (m : M A) (w w0 : world) : pure_M m -> m w = ((m w0).1, w).
Proof. intros [r Hr]. now rewrite !Hr. Qed.

Lemma bind_lift {A B} (r : result A) (k : A -> M B) (w : world) :
  bind (lift r) k w = match r with Ok a => k a w | Raise e => (Raise e, w) end.
Proof. unfold bind, lift. now destruct r. Qed.

Lemma bind_ret {A B} (a : A) (k : A -> M B) (w : world) : bind (ret a) k w = k a w.
Proof. reflexivity. Qed.

Lemma bind_raise {A B} (e : exn) (k : A -> M B) (w : world) :
  bind (raise e) k w = (Raise e, w).
Proof. reflexivity. Qed.

Ltac pure_step :=
  match goal with
  | |- pure_M (bind _ _) => apply pure_bind; [| intros ?]
  | |- pure_M (ret _) => apply pure_ret
  | |- pure_M (raise _) => apply pure_raise
  | |- pure_M (lift _) => apply pure_lift
  | |- pure_M (match ?x with _ => _ end) => destruct x
  | |- pure_M (if ?x then _ else _) => destruct x
  end.

Section Phases.

Context (E : Env).

Lemma pure_consolidate im wk : pure_M (consolidate_level_hint E im wk).
Proof. unfold consolidate_level_hint. repeat pure_step. Qed.

Lemma pure_pair_resolved im out c : pure_M (pair_resolved_entries E im out c).
Proof. unfold pair_resolved_entries. repeat pure_step. Qed.

Lemma pure_annotate im out : pure_M (annotate E im out).
Proof.
  unfold annotate. repeat pure_step. apply pure_pair_resolved.
Qed.

Lemma found_ok (p : string) (w : world) :
  which_import E = Some p -> found E true w = (Ok true, log w [EFound true]).
Proof. intros Hp. unfold found, bind, emit. simpl. now rewrite Hp. Qed.

Lemma found_missing (w : world) :
  which_import E = None ->
  found E true w = (Raise (ModuleNotFoundError raise_msg), log w [EFound true]).
Proof. intros Hp. unfold found, bind, emit. simpl. now rewrite Hp. Qed.

(** *** Plan resolution *)

Lemma resolve_plan_eq im wk w :
  resolve_plan E im wk w =
    (match resolver_result E im (mtd wk) with
     | Ok planinfo =>
         Ok {| mtd := mtd wk; input_data := set_extra (input_data wk) "info" planinfo |}
     | Raise e => if is_input_error e then Ok wk else Raise e
     end,
     log w [resolver_call im (mtd wk)]).
Proof.
  unfold resolve_plan, resolver_result, resolver_call, bind, emit; simpl.
  destruct (from_arrays E _ _ _ _) as [plan|[]]; reflexivity.
Qed.

(** *** The loop over the alias table *)

Lemma strip_level_step_frame wk it :
  molecule (input_data (strip_level_step wk it)) = molecule (input_data wk) /\
  driver (input_data (strip_level_step wk it)) = driver (input_data wk) /\
  keywords (input_data (strip_level_step wk it)) = keywords (input_data wk) /\
  extras (input_data (strip_level_step wk it)) = extras (input_data wk).
Proof.
  destruct it as [alias d4]. unfold strip_level_step.
  destruct (_ && _); simpl; auto.
Qed.

Lemma strip_level_step_synced wk it :
  model_method (input_data wk) = mtd wk ->
  model_method (input_data (strip_level_step wk it)) = mtd (strip_level_step wk it).
Proof.
  destruct it as [alias d4]. unfold strip_level_step.
  destruct (_ && _); simpl; auto.
Qed.

Lemma strip_level_step_mtd wk1 wk2 it :
  mtd wk1 = mtd wk2 -> mtd (strip_level_step wk1 it) = mtd (strip_level_step wk2 it).
Proof.
  destruct it as [alias d4]. unfold strip_level_step. intros Hm. rewrite Hm.
  destruct (_ && _); simpl; auto.
Qed.

Lemma strip_dispersion_level_frame wk :
  molecule (input_data (strip_dispersion_level E wk)) = molecule (input_data wk) /\
  driver (input_data (strip_dispersion_level E wk)) = driver (input_data wk) /\
  keywords (input_data (strip_dispersion_level E wk)) = keywords (input_data wk) /\
  extras (input_data (strip_dispersion_level E wk)) = extras (input_data wk).
Proof.
  unfold strip_dispersion_level.
  generalize (get_dispersion_aliases E) as tbl. intros tbl. revert wk.
  induction tbl as [|it tbl IH]; intros wk; simpl; [auto|].
  destruct (IH (strip_level_step wk it)) as (-> & -> & -> & ->).
  apply strip_level_step_frame.
Qed.

Lemma strip_dispersion_level_synced wk :
  model_method (input_data wk) = mtd wk ->
  model_method (input_data (strip_dispersion_level E wk)) = mtd (strip_dispersion_level E wk).
Proof.
  unfold strip_dispersion_level.
  generalize (get_dispersion_aliases E) as tbl. intros tbl. revert wk.
  induction tbl as [|it tbl IH]; intros wk Hs; simpl; [exact Hs|].
  apply IH. now apply strip_level_step_synced.
Qed.

Lemma strip_dispersion_level_mtd wk1 wk2 :
  mtd wk1 = mtd wk2 ->
  mtd (strip_dispersion_level E wk1) = mtd (strip_dispersion_level E wk2).
Proof.
  unfold strip_dispersion_level.
  generalize (get_dispersion_aliases E) as tbl. intros tbl. revert wk1 wk2.
  induction tbl as [|it tbl IH]; intros wk1 wk2 Hm; simpl; [exact Hm|].
  apply IH. now apply strip_level_step_mtd.
Qed.

Lemma strip_engine_hint_synced im :
  model_method (input_data (strip_engine_hint im)) = mtd (strip_engine_hint im).
Proof. unfold strip_engine_hint. destruct (PyStr.startswith _ _); reflexivity. Qed.

Lemma strip_engine_hint_frame im :
  molecule (input_data (strip_engine_hint im)) = molecule im /\
  driver (input_data (strip_engine_hint im)) = driver im /\
  keywords (input_data (strip_engine_hint im)) = keywords im /\
  extras (input_data (strip_engine_hint im)) = extras im.
Proof. unfold strip_engine_hint. destruct (PyStr.startswith _ _); simpl; auto. Qed.

(** *** Level-hint consolidation *)

Lemma consolidate_frame im wk w wk' w' :
  consolidate_level_hint E im wk w = (Ok wk', w') ->
  mtd wk' = mtd wk /\
  model_method (input_data wk') = model_method (input_data wk) /\
  molecule (input_data wk') = molecule (input_data wk) /\
  driver (input_data wk') = driver (input_data wk) /\
  extras (input_data wk') = extras (input_data wk) /\
  (forall k, k <> "level_hint" ->
     keywords (input_data wk') !! k = keywords (input_data wk) !! k).
Proof.
  unfold consolidate_level_hint. rewrite bind_lift.
  destruct (truthy _) as [[|]|]; [|inversion 1; subst; tauto|discriminate].
  rewrite bind_lift. destruct (str_lower _) as [key|]; [|discriminate].
  rewrite bind_lift. destruct (alias_index _ _) as [d4|]; [|discriminate].
  destruct (String.eqb d4 "d4bj"); inversion 1; subst; simpl.
  - repeat split; auto. intros k Hk. now rewrite lookup_insert_ne.
  - tauto.
Qed.

(** *** [prepare] and [compute] as a whole *)

Lemma prepare_eq im w :
  let wk1 := strip_engine_hint im in
  let r := resolver_result E im (mtd wk1) in
  let w1 := log w [resolver_call im (mtd wk1)] in
  prepare E im w =
    match propagated r with
    | Some e => (Raise e, w1)
    | None =>
        bind (consolidate_level_hint E im (strip_dispersion_level E (stash_plan r wk1)))
             (fun wk => ret (input_data wk)) w1
    end.
Proof.
  intros wk1 r w1. unfold prepare. unfold bind at 1. rewrite resolve_plan_eq.
  fold wk1 r w1. unfold propagated, stash_plan.
  destruct r as [plan|e]; [reflexivity|]. now destruct (is_input_error e).
Qed.

Lemma prepare_log im w :
  (prepare E im w).2 = log w [resolver_call im (mtd (strip_engine_hint im))].
Proof.
  rewrite prepare_eq. destruct (propagated _); [reflexivity|].
  rewrite (pure_world _ _ w); [reflexivity|].
  apply pure_bind; [apply pure_consolidate | intros; apply pure_ret].
Qed.

Lemma prepare_value im w w0 : (prepare E im w).1 = (prepare E im w0).1.
Proof.
  rewrite !prepare_eq. destruct (propagated _); [reflexivity|].
  match goal with
  | |- (?m _).1 = _ =>
      assert (Hm : pure_M m)
        by (apply pure_bind; [apply pure_consolidate | intros; apply pure_ret])
  end.
  destruct Hm as [r Hr]. now rewrite !Hr.
Qed.

Lemma prepare_ok im w im' :
  (prepare E im w).1 = Ok im' ->
  let r := resolver_result E im (mtd (strip_engine_hint im)) in
  propagated r = None /\
  model_method im' = mtd (strip_dispersion_level E (strip_engine_hint im)) /\
  molecule im' = molecule im /\
  driver im' = driver im /\
  extras im' = extras (input_data (stash_plan r (strip_engine_hint im))) /\
  (forall k, k <> "level_hint" -> keywords im' !! k = keywords im !! k).
Proof.
  intros Hok r. rewrite prepare_eq in Hok. fold r in Hok.
  destruct (propagated r) eqn:Hp; [discriminate|]. split; [reflexivity|].
  unfold bind in Hok.
  destruct (consolidate_level_hint E im _ _) as [[wk'|e] w'] eqn:Hc; [|discriminate].
  simpl in Hok. injection Hok as <-.
  apply consolidate_frame in Hc as (Hm & Hmm & Hmol & Hdrv & Hex & Hkw).
  destruct (strip_dispersion_level_frame (stash_plan r (strip_engine_hint im)))
    as (Fmol & Fdrv & Fkw & Fex).
  destruct (strip_engine_hint_frame im) as (Gmol & Gdrv & Gkw & Gex).
  assert (Hst : forall wk,
            molecule (input_data (stash_plan r wk)) = molecule (input_data wk) /\
            driver (input_data (stash_plan r wk)) = driver (input_data wk) /\
            keywords (input_data (stash_plan r wk)) = keywords (input_data wk) /\
            model_method (input_data (stash_plan r wk)) = model_method (input_data wk) /\
            mtd (stash_plan r wk) = mtd wk)
    by (intros wk; destruct r; simpl; auto).
  destruct (Hst (strip_engine_hint im)) as (Smol & Sdrv & Skw & Smm & Smtd).
  repeat split.
  - rewrite Hmm, strip_dispersion_level_synced.
    + now apply strip_dispersion_level_mtd.
    + rewrite Smm, Smtd. apply strip_engine_hint_synced.
  - congruence.
  - congruence.
  - congruence.
  - intros k Hk. rewrite (Hkw k Hk). congruence.
Qed.

Lemma compute_eq (p : string) im w :
  which_import E = Some p ->
  compute E im w =
    match prepare E im (log w [EFound true]) with
    | (Ok im', w1) =>
        match run_qcschema E im' with
        | Ok output => ((annotate E im' output w).1, log w1 [ERunQcschema im'])
        | Raise e => (Raise e, log w1 [ERunQcschema im'])
        end
    | (Raise e, w1) => (Raise e, w1)
    end.
Proof.
  intros Hp. unfold compute. unfold bind at 1. rewrite (found_ok p w Hp).
  unfold bind at 1. destruct (prepare E im _) as [[im'|e] w1]; [|reflexivity].
  unfold call_run_qcschema, bind, emit, lift; simpl.
  destruct (run_qcschema E im') as [output|e]; [|reflexivity].
  apply pure_world, pure_annotate.
Qed.

Lemma compute_missing im w :
  which_import E = None ->
  compute E im w = (Raise (ModuleNotFoundError raise_msg), log w [EFound true]).
Proof. intros Hp. unfold compute. unfold bind at 1. now rewrite (found_missing w Hp). Qed.

(** The calls [compute] makes: the probe, the resolver, and then the backend
    if and only if [prepare] produced a request. *)
Lemma compute_trace (p : string) im w :
  which_import E = Some p ->
  exists tl,
    trace (compute E im w).2 =
      (trace w ++ EFound true :: resolver_call im (mtd (strip_engine_hint im)) :: tl)%list /\
    match (prepare E im w).1 with
    | Ok im' => tl = [ERunQcschema im']
    | Raise _ => tl = []
    end.
Proof.
  intros Hp. rewrite (compute_eq p im w Hp).
  pose proof (prepare_log im (log w [EFound true])) as Hlog.
  rewrite (prepare_value im w (log w [EFound true])).
  destruct (prepare E im (log w [EFound true])) as [[im'|e] w1]; simpl in *; subst w1.
  - exists [ERunQcschema im']. split; [|reflexivity].
    destruct (run_qcschema E im'); simpl; now rewrite <- !app_assoc.
  - exists []. split; [|reflexivity]. simpl. now rewrite <- !app_assoc.
Qed.

(** *** One iteration of the alias loop

    When the current alias carries the tag ["d4bj"] and the lowercased method
    ends with it, the iteration cuts the alias and the one character before
    it, whatever that character is. *)
Lemma strip_level_step_cut wk (alias pre sfx : string) (c : ascii) :
  mtd wk = pre +:+ String c sfx ->
  PyStr.lower sfx = alias ->
  strip_level_step wk (alias, "d4bj") =
    {| mtd := pre; input_data := set_method (input_data wk) pre |}.
Proof.
  intros Hm Hl. unfold strip_level_step. rewrite Hm.
  assert (Hlen : String.length alias = String.length sfx)
    by (rewrite <- Hl; apply map_ascii_length).
  assert (Hend : PyStr.endswith (PyStr.lower (pre +:+ String c sfx)) alias = true).
  { unfold PyStr.lower. rewrite map_ascii_app. simpl.
    change (String (PyStr.lower_ascii c) (PyStr.map_ascii PyStr.lower_ascii sfx))
      with (String (PyStr.lower_ascii c) "" +:+ PyStr.lower sfx).
    rewrite Hl, <- str_app_assoc. apply endswith_app. }
  rewrite Hend. simpl.
  rewrite (slice_to_neg_app pre (String c sfx)); [reflexivity|].
  simpl. lia.
Qed.

End Phases.

(** ** The engine prefix *)

Lemma strip_engine_hint_prefixed (im : AtomicInput) (rest : string) :
  model_method im = "d4-" +:+ rest ->
  strip_engine_hint im = {| mtd := rest; input_data := set_method im rest |}.
Proof.
  intros Hm. unfold strip_engine_hint. rewrite Hm.
  rewrite (startswith_app "d4-" rest). reflexivity.
Qed.

Lemma strip_engine_hint_other (im : AtomicInput) :
  PyStr.startswith (model_method im) "d4-" = false ->
  strip_engine_hint im = {| mtd := model_method im; input_data := im |}.
Proof. intros Hm. unfold strip_engine_hint. now rewrite Hm. Qed.

(** C7. A method that begins with ["d4-"] loses that prefix, once: what
    follows the prefix becomes both the local [mtd] and the method of the
    working copy, even when it begins with ["d4-"] again; any other method is
    left as it is.  The step comes before plan resolution (the resolver is
    called, right after the availability probe, with the stripped name as its
    hint) and before suffix stripping (the method of the request that
    [prepare] hands on is the alias loop run on the stripped name). *)
Theorem engine_prefix_stripped_once (E : Env) (p : string) (im : AtomicInput) (w : world) :
  which_import E = Some p ->
  (forall rest, model_method im = "d4-" +:+ rest ->
     strip_engine_hint im = {| mtd := rest; input_data := set_method im rest |}) /\
  (PyStr.startswith (model_method im) "d4-" = false ->
     strip_engine_hint im = {| mtd := model_method im; input_data := im |}) /\
  (exists tl,
     trace (compute E im w).2 =
       (trace w ++ EFound true :: resolver_call im (mtd (strip_engine_hint im)) :: tl)%list) /\
  (forall im', (prepare E im w).1 = Ok im' ->
     model_method im' = mtd (strip_dispersion_level E (strip_engine_hint im))).
Proof.
  intros Hp. split; [apply strip_engine_hint_prefixed|].
  split; [apply strip_engine_hint_other|]. split.
  - destruct (compute_trace E p im w Hp) as (tl & Htl & _). now exists tl.
  - intros im' Hok. now apply (prepare_ok E im w im') in Hok as (_ & Hm & _).
Qed.

Lemma engine_prefix_stripped_once_witness :
  which_import (Demo.env 0%float) = Some "site-packages/dftd4/__init__.py" /\
  mtd (strip_engine_hint (Demo.request "d4-d4-pbe" energy ∅ ∅)) = "d4-pbe" /\
  model_method (input_data (strip_engine_hint (Demo.request "d4-d4-pbe" energy ∅ ∅))) = "d4-pbe" /\
  mtd (strip_engine_hint (Demo.request "d4-pbe" energy ∅ ∅)) = "pbe" /\
  strip_engine_hint (Demo.request "pbe" energy ∅ ∅) =
    {| mtd := "pbe"; input_data := Demo.request "pbe" energy ∅ ∅ |}.
Proof.
  split; [reflexivity|].
  destruct (engine_prefix_stripped_once (Demo.env 0%float) "site-packages/dftd4/__init__.py"
              (Demo.request "d4-d4-pbe" energy ∅ ∅) Demo.world0 eq_refl) as (H1 & _).
  destruct (engine_prefix_stripped_once (Demo.env 0%float) "site-packages/dftd4/__init__.py"
              (Demo.request "d4-pbe" energy ∅ ∅) Demo.world0 eq_refl) as (H2 & _).
  destruct (engine_prefix_stripped_once (Demo.env 0%float) "site-packages/dftd4/__init__.py"
              (Demo.request "pbe" energy ∅ ∅) Demo.world0 eq_refl) as (_ & H3 & _).
  rewrite (H1 "d4-pbe" eq_refl), (H2 "pbe" eq_refl), (H3 eq_refl).
  repeat split.
Defined.

(** ** The dispersion-level suffix *)

(** C1. The loop body does not look at the character in front of the alias.
    For the alias ["d4bj"] with tag ["d4bj"], any method [pre ++ c ++ "d4bj"]
    is cut down to [pre], whatever the character [c] is: the test of line 96
    is [endswith(alias)], the cut of line 97 is [len(alias) + 1] characters.
    So ["pbed4bj"], which does not end with ["-d4bj"], is not left unchanged:
    it becomes ["pb"], and ["pb"] is the method the backend is called with. *)
Theorem suffix_strip_ignores_separator :
  (forall (pre : string) (c : ascii) (d : AtomicInput),
     strip_level_step {| mtd := pre +:+ String c "d4bj"; input_data := d |} ("d4bj", "d4bj") =
       {| mtd := pre; input_data := set_method d pre |}) /\
  PyStr.endswith (PyStr.lower "pbed4bj") "-d4bj" = false /\
  mtd (strip_dispersion_level (Demo.env 0%float)
         (strip_engine_hint (Demo.request "pbed4bj" energy ∅ ∅))) = "pb" /\
  exists output w' im',
    compute (Demo.env 0%float) (Demo.request "pbed4bj" energy ∅ ∅) Demo.world0 = (Ok output, w') /\
    last (trace w') = Some (ERunQcschema im') /\
    model_method im' = "pb".
Proof.
  split.
  { intros pre c d.
    now apply (strip_level_step_cut {| mtd := pre +:+ String c "d4bj"; input_data := d |}
                 "d4bj" pre "d4bj" c). }
  split; [reflexivity|]. split; [reflexivity|].
  set (r := compute _ _ _). vm_compute in r. subst r.
  do 3 eexists. split; [reflexivity|]. split; reflexivity.
Qed.

(** ** Plan resolution *)

Lemma prepare_propagates (E : Env) im w e :
  propagated (resolver_result E im (mtd (strip_engine_hint im))) = Some e ->
  prepare E im w = (Raise e, log w [resolver_call im (mtd (strip_engine_hint im))]).
Proof. intros Hr. rewrite prepare_eq. now rewrite Hr. Qed.

Lemma delegate_calls_failed_prepare (E : Env) (p : string) im w e :
  which_import E = Some p ->
  (prepare E im w).1 = Raise e ->
  (compute E im w).1 = Raise e /\
  delegate_calls (trace (compute E im w).2) = delegate_calls (trace w).
Proof.
  intros Hp Hr. destruct (compute_trace E p im w Hp) as (tl & Htl & Hcase).
  rewrite Hr in Hcase. subst tl. split.
  - rewrite (compute_eq E p im w Hp).
    rewrite (prepare_value E im w (log w [EFound true])) in Hr.
    destruct (prepare E im (log w [EFound true])) as [[im'|e'] w1]; simpl in *; congruence.
  - rewrite Htl, delegate_calls_app. unfold resolver_call.
    unfold delegate_calls at 2. simpl. lia.
Qed.

(** C3. At lines 81-92 exactly one kind of exception is recovered from.
    When the resolver raises [InputError], the step returns normally with the
    working copy untouched: nothing is stored under ["info"], and the request
    that [prepare] hands on has the extras of the original request.  When the
    resolver returns a plan, the plan is stored under ["info"] of the working
    copy's extras.  Any other exception leaves [compute] as it was raised, and
    the backend is not called. *)
Theorem resolver_error_handling (E : Env) (p : string) (im : AtomicInput) (w : world) :
  which_import E = Some p ->
  (forall msg,
     resolver_result E im (mtd (strip_engine_hint im)) = Raise (InputError msg) ->
     resolve_plan E im (strip_engine_hint im) w =
       (Ok (strip_engine_hint im), log w [resolver_call im (mtd (strip_engine_hint im))]) /\
     (forall im', (prepare E im w).1 = Ok im' -> extras im' = extras im)) /\
  (forall planinfo,
     resolver_result E im (mtd (strip_engine_hint im)) = Ok planinfo ->
     resolve_plan E im (strip_engine_hint im) w =
       (Ok {| mtd := mtd (strip_engine_hint im);
              input_data := set_extra (input_data (strip_engine_hint im)) "info" planinfo |},
        log w [resolver_call im (mtd (strip_engine_hint im))]) /\
     (forall im', (prepare E im w).1 = Ok im' ->
        extras im' = <["info" := planinfo]> (extras im))) /\
  (forall e,
     resolver_result E im (mtd (strip_engine_hint im)) = Raise e ->
     is_input_error e = false ->
     resolve_plan E im (strip_engine_hint im) w =
       (Raise e, log w [resolver_call im (mtd (strip_engine_hint im))]) /\
     (compute E im w).1 = Raise e /\
     delegate_calls (trace (compute E im w).2) = delegate_calls (trace w)).
Proof.
  intros Hp.
  destruct (strip_engine_hint_frame im) as (_ & _ & _ & Hex).
  repeat split.
  - rewrite resolve_plan_eq, H. reflexivity.
  - intros im' Hok. apply prepare_ok in Hok as (_ & _ & _ & _ & Hx & _).
    rewrite Hx, H. simpl. exact Hex.
  - rewrite resolve_plan_eq, H. reflexivity.
  - intros im' Hok. apply prepare_ok in Hok as (_ & _ & _ & _ & Hx & _).
    rewrite Hx, H. simpl. now rewrite Hex.
  - rewrite resolve_plan_eq, H, H0. reflexivity.
  - apply (delegate_calls_failed_prepare E p im w e Hp).
    rewrite (prepare_propagates E im w e); [reflexivity|].
    unfold propagated. now rewrite H, H0.
  - apply (delegate_calls_failed_prepare E p im w e Hp).
    rewrite (prepare_propagates E im w e); [reflexivity|].
    unfold propagated. now rewrite H, H0.
Qed.

Lemma resolver_error_handling_witness :
  (forall im', (prepare (Demo.env 0%float) (Demo.request "bogus" energy ∅ ∅) Demo.world0).1 = Ok im' ->
     extras im' = ∅) /\
  (forall im', (prepare (Demo.env 0%float) (Demo.request "pbe" energy ∅ ∅) Demo.world0).1 = Ok im' ->
     extras im' = <["info" := VDict {[ "fctldash" := VStr "pbe-d4" ]}]> ∅) /\
  (compute (Demo.env 0%float) (Demo.request "crash" energy ∅ ∅) Demo.world0).1
    = Raise (OtherError "RuntimeError").
Proof.
  destruct (resolver_error_handling (Demo.env 0%float) "site-packages/dftd4/__init__.py"
              (Demo.request "bogus" energy ∅ ∅) Demo.world0 eq_refl) as (H1 & _).
  destruct (resolver_error_handling (Demo.env 0%float) "site-packages/dftd4/__init__.py"
              (Demo.request "pbe" energy ∅ ∅) Demo.world0 eq_refl) as (_ & H2 & _).
  destruct (resolver_error_handling (Demo.env 0%float) "site-packages/dftd4/__init__.py"
              (Demo.request "crash" energy ∅ ∅) Demo.world0 eq_refl) as (_ & _ & H3).
  split; [exact (proj2 (H1 "unknown functional" eq_refl))|].
  split; [exact (proj2 (H2 _ eq_refl))|].
  exact (proj1 (proj2 (H3 _ eq_refl eq_refl))).
Defined.

(** ** The level hint *)

Lemma alias_index_missing (tbl : list (string * string)) (key : string) :
  (forall d4, ~ In (key, d4) tbl) -> alias_index tbl key = Raise (KeyError key).
Proof.
  induction tbl as [|[alias d4] tbl IH]; intros Hnot; simpl; [reflexivity|].
  destruct (String.eqb alias key) eqn:Heq.
  - apply String.eqb_eq in Heq. subst. exfalso. apply (Hnot d4). now left.
  - apply IH. intros d Hin. apply (Hnot d). now right.
Qed.

Lemma consolidate_unknown (E : Env) im wk w (s : string) :
  keywords im !! "level_hint" = Some (VStr s) ->
  s <> "" ->
  (forall d4, ~ In (PyStr.lower s, d4) (get_dispersion_aliases E)) ->
  consolidate_level_hint E im wk w = (Raise (KeyError (PyStr.lower s)), w).
Proof.
  intros Hk Hs Hnot. unfold consolidate_level_hint, dict_get. rewrite Hk. simpl.
  rewrite bind_lift.
  destruct s as [|c s]; [congruence|]. simpl.
  rewrite bind_lift, bind_lift.
  now rewrite (alias_index_missing _ _ Hnot).
Qed.

(** C9. A request whose ["level_hint"] keyword is a non-empty string that,
    lowercased, is not a key of the alias table never reaches the backend:
    [compute] ends with an exception and no call of [run_qcschema] is made.
    The consolidation step itself raises [KeyError] with the lowercased hint
    (line 102 indexes the table directly), and that is the exception
    [compute] ends with whenever the backend is installed and the resolver
    either answered or raised the [InputError] that is swallowed. *)
Theorem unknown_level_hint_never_delegated (E : Env) (im : AtomicInput) (w : world) (s : string) :
  keywords im !! "level_hint" = Some (VStr s) ->
  s <> "" ->
  (forall d4, ~ In (PyStr.lower s, d4) (get_dispersion_aliases E)) ->
  (forall wk, consolidate_level_hint E im wk w = (Raise (KeyError (PyStr.lower s)), w)) /\
  (exists e, (compute E im w).1 = Raise e) /\
  delegate_calls (trace (compute E im w).2) = delegate_calls (trace w) /\
  (forall p, which_import E = Some p ->
     propagated (resolver_result E im (mtd (strip_engine_hint im))) = None ->
     (compute E im w).1 = Raise (KeyError (PyStr.lower s))).
Proof.
  intros Hk Hs Hnot.
  assert (Hprep : forall w0,
            propagated (resolver_result E im (mtd (strip_engine_hint im))) = None ->
            (prepare E im w0).1 = Raise (KeyError (PyStr.lower s))).
  { intros w0 Hnone. rewrite prepare_eq, Hnone. unfold bind.
    now rewrite (consolidate_unknown E im _ _ s Hk Hs Hnot). }
  split; [intros wk; now apply consolidate_unknown|].
  destruct (which_import E) as [p|] eqn:Hp.
  - assert (Hfail : exists e, (prepare E im w).1 = Raise e).
    { destruct (propagated (resolver_result E im (mtd (strip_engine_hint im)))) as [e|] eqn:Hr.
      - exists e. now rewrite (prepare_propagates E im w e Hr).
      - eexists. now apply Hprep. }
    destruct Hfail as [e He].
    destruct (delegate_calls_failed_prepare E p im w e Hp He) as (Hc & Hd).
    split; [now exists e|]. split; [exact Hd|].
    intros p' _ Hnone. rewrite Hc. rewrite (Hprep w Hnone) in He. congruence.
  - rewrite (compute_missing E im w Hp). simpl.
    split; [eexists; reflexivity|]. split.
    + rewrite delegate_calls_app. unfold delegate_calls at 2. simpl. lia.
    + intros p' Hp'. discriminate.
Qed.

Lemma unknown_level_hint_never_delegated_witness :
  (compute (Demo.env 0%float)
     (Demo.request "pbe" energy {[ "level_hint" := VStr "D5" ]} ∅) Demo.world0).1
  = Raise (KeyError "d5").
Proof.
  assert (Hnot : forall d4, ~ In (PyStr.lower "D5", d4) (get_dispersion_aliases (Demo.env 0%float))).
  { intros d4 Hin. simpl in Hin.
    repeat (destruct Hin as [Hin|Hin]; [discriminate Hin|]). exact Hin. }
  assert (Hk : keywords (Demo.request "pbe" energy {[ "level_hint" := VStr "D5" ]} ∅)
                 !! "level_hint" = Some (VStr "D5")) by reflexivity.
  assert (Hs : "D5" <> "") by discriminate.
  destruct (unknown_level_hint_never_delegated (Demo.env 0%float)
              (Demo.request "pbe" energy {[ "level_hint" := VStr "D5" ]} ∅)
              Demo.world0 "D5" Hk Hs Hnot)
    as (_ & _ & _ & H).
  exact (H "site-packages/dftd4/__init__.py" eq_refl eq_refl).
Defined.

(** ** Annotation of the result *)

Section Annotation.

Context (E : Env).

(** With a plan under ["info"] whose ["fctldash"] is a string, [annotate]
    is the [pair_resolved] block run on the energy and gradient entries. *)
Lemma annotate_info im output w info (fd : string) :
  extras im !! "info" = Some info ->
  subscript info "fctldash" = Ok (VStr fd) ->
  annotate E im output w =
    bind (pair_resolved_entries E im (merge_extras im output)
            (base_entries im (merge_extras im output) (PyStr.upper fd)))
         (fun calcinfo =>
            ret (set_out_extras (merge_extras im output)
                   (<["qcvars" := VDict calcinfo]> (out_extras (merge_extras im output))))) w.
Proof.
  intros Hi Hf. unfold annotate. rewrite Hi, bind_lift, Hf. simpl.
  now rewrite bind_lift.
Qed.

Lemma annotate_no_info im output w :
  extras im !! "info" = None ->
  annotate E im output w = (Ok (merge_extras im output), w).
Proof. intros Hi. unfold annotate. now rewrite Hi. Qed.

(** The [pair_resolved] block only ever adds its own four keys. *)
Lemma pair_resolved_frame im output c w c' w' :
  pair_resolved_entries E im output c w = (Ok c', w') ->
  forall k,
    k <> "2-BODY DISPERSION CORRECTION ENERGY" ->
    k <> "3-BODY DISPERSION CORRECTION ENERGY" ->
    k <> "2-BODY PAIRWISE DISPERSION CORRECTION ANALYSIS" ->
    k <> "3-BODY PAIRWISE DISPERSION CORRECTION ANALYSIS" ->
    c' !! k = c !! k.
Proof.
  unfold pair_resolved_entries.
  destruct (keywords im !! "pair_resolved") as [[| [|] | | | | | |]|];
    try (inversion 1; subst; reflexivity).
  rewrite bind_lift. destruct (dict_index _ _) as [d|]; [|discriminate].
  rewrite bind_lift. destruct (subscript d _) as [pw2|]; [|discriminate].
  rewrite bind_lift, bind_lift. destruct (subscript d _) as [pw3|]; [|discriminate].
  rewrite bind_lift. destruct (array_sum E pw2) as [s2|]; [|discriminate].
  rewrite bind_lift. destruct (array_sum E pw3) as [s3|]; [|discriminate].
  destruct (return_energy output) as [ene|]; [|discriminate].
  rewrite bind_ret. destruct (pairwise_consistent s2 s3 ene); [|discriminate].
  inversion 1; subst. intros k H1 H2 H3 H4.
  now rewrite !lookup_insert_ne by congruence.
Qed.

(** What the [pair_resolved] block does when the keyword is [True], the
    result carries the two arrays and an energy. *)
Lemma pair_resolved_true im output c w d pw2 pw3 ene :
  keywords im !! "pair_resolved" = Some (VBool true) ->
  out_extras output !! "dftd4" = Some (VDict d) ->
  d !! "additive pairwise energy" = Some (VArr pw2) ->
  d !! "non-additive pairwise energy" = Some (VArr pw3) ->
  return_energy output = Some ene ->
  pair_resolved_entries E im output c w =
    if pairwise_consistent (ndarray_sum E pw2) (ndarray_sum E pw3) ene
    then (Ok (<["3-BODY PAIRWISE DISPERSION CORRECTION ANALYSIS" := VArr pw3]>
               (<["2-BODY PAIRWISE DISPERSION CORRECTION ANALYSIS" := VArr pw2]>
                  (<["3-BODY DISPERSION CORRECTION ENERGY" := VFloat (ndarray_sum E pw3)]>
                     (<["2-BODY DISPERSION CORRECTION ENERGY" := VFloat (ndarray_sum E pw2)]> c)))),
          w)
    else (Raise AssertionError, w).
Proof.
  intros Hk Hd H2 H3 He. unfold pair_resolved_entries. rewrite Hk.
  repeat (rewrite bind_lift; unfold subscript, dict_index, array_sum;
          rewrite ?Hd, ?H2, ?H3).
  rewrite He, bind_ret.
  now destruct (pairwise_consistent _ _ _).
Qed.

End Annotation.

(** A result that [compute] returns is the result the backend gave for the
    prepared request, annotated. *)
Lemma compute_ok (E : Env) im w final :
  (compute E im w).1 = Ok final ->
  exists im' output,
    (prepare E im w).1 = Ok im' /\
    run_qcschema E im' = Ok output /\
    (annotate E im' output w).1 = Ok final.
Proof.
  intros Hc. destruct (which_import E) as [p|] eqn:Hp.
  - rewrite (compute_eq E p im w Hp) in Hc.
    rewrite (prepare_value E im w (log w [EFound true])).
    destruct (prepare E im (log w [EFound true])) as [[im'|e] w1]; [|discriminate].
    destruct (run_qcschema E im') as [output|e] eqn:Hr; [|discriminate].
    exists im', output. auto.
  - rewrite (compute_missing E im w Hp) in Hc. discriminate.
Qed.

Lemma compute_of_annotate (E : Env) (p : string) im w im' output :
  which_import E = Some p ->
  (prepare E im w).1 = Ok im' ->
  run_qcschema E im' = Ok output ->
  (compute E im w).1 = (annotate E im' output w).1.
Proof.
  intros Hp Hprep Hr. rewrite (compute_eq E p im w Hp).
  rewrite (prepare_value E im w (log w [EFound true])) in Hprep.
  destruct (prepare E im (log w [EFound true])) as [[im''|e] w1]; simpl in Hprep; [|discriminate].
  injection Hprep as ->. now rewrite Hr.
Qed.

Ltac lookup_entry :=
  repeat (rewrite lookup_insert_ne by discriminate); rewrite lookup_insert_eq; reflexivity.

(** C6. For a request with driver ["gradient"] whose resolved plan carries
    [fctldash = "pbe-d4"], any result [compute] returns has under
    [extras["qcvars"]] a bag with the three energy keys, all holding the
    returned energy, and the three gradient keys, all holding the returned
    gradient; the keys prefixed with [PBE-D4] hold what the plain keys hold. *)
Theorem gradient_qcvars (E : Env) (im : AtomicInput) (w : world)
    (plan : gmap string pyval) (final : AtomicResult) :
  driver im = gradient ->
  resolver_result E im (mtd (strip_engine_hint im)) = Ok (VDict plan) ->
  plan !! "fctldash" = Some (VStr "pbe-d4") ->
  (compute E im w).1 = Ok final ->
  exists c,
    out_extras final !! "qcvars" = Some (VDict c) /\
    c !! "CURRENT ENERGY" = Some (energy_value (return_energy final)) /\
    c !! "DISPERSION CORRECTION ENERGY" = Some (energy_value (return_energy final)) /\
    c !! "PBE-D4 DISPERSION CORRECTION ENERGY" = Some (energy_value (return_energy final)) /\
    c !! "CURRENT GRADIENT" = Some (return_result final) /\
    c !! "DISPERSION CORRECTION GRADIENT" = Some (return_result final) /\
    c !! "PBE-D4 DISPERSION CORRECTION GRADIENT" = Some (return_result final).
Proof.
  intros Hdrv Hres Hfd Hc.
  destruct (compute_ok E im w final Hc) as (im' & output & Hprep & Hrun & Ha).
  apply prepare_ok in Hprep as (_ & _ & _ & Hd' & Hx & _).
  rewrite Hres in Hx. simpl in Hx.
  assert (Hinfo : extras im' !! "info" = Some (VDict plan))
    by (rewrite Hx; apply lookup_insert_eq).
  assert (Hsub : subscript (VDict plan) "fctldash" = Ok (VStr "pbe-d4"))
    by (unfold subscript, dict_index; now rewrite Hfd).
  rewrite (annotate_info E im' output w _ _ Hinfo Hsub) in Ha.
  unfold bind in Ha.
  destruct (pair_resolved_entries E im' _ _ w) as [[c|e] w'] eqn:Hpr; [|discriminate].
  simpl in Ha. injection Ha as <-.
  exists c. split; [apply lookup_insert_eq|].
  pose proof (pair_resolved_frame E _ _ _ _ _ _ Hpr) as Hfr.
  unfold set_out_extras, merge_extras; simpl.
  repeat split.
  all: rewrite Hfr by discriminate.
  all: unfold base_entries; rewrite Hd', Hdrv; simpl.
  all: lookup_entry.
Qed.

Lemma gradient_qcvars_witness :
  exists final c,
    (compute (Demo.env (-0.625)%float) (Demo.request "pbe" gradient ∅ ∅) Demo.world0).1 = Ok final /\
    out_extras final !! "qcvars" = Some (VDict c) /\
    c !! "PBE-D4 DISPERSION CORRECTION ENERGY" = Some (VFloat (-0.625)%float) /\
    c !! "PBE-D4 DISPERSION CORRECTION GRADIENT" = Some (VArr [0%float; 0%float; 0%float]).
Proof.
  destruct (compute (Demo.env (-0.625)%float) (Demo.request "pbe" gradient ∅ ∅) Demo.world0).1
    as [final|e] eqn:Hc; [|vm_compute in Hc; discriminate Hc].
  destruct (gradient_qcvars (Demo.env (-0.625)%float) (Demo.request "pbe" gradient ∅ ∅)
              Demo.world0 {[ "fctldash" := VStr "pbe-d4" ]} final
              eq_refl eq_refl eq_refl Hc) as (c & Hq & _ & _ & He & _ & _ & Hg).
  exists final, c. split; [reflexivity|]. split; [exact Hq|].
  rewrite He, Hg. vm_compute in Hc. injection Hc as <-. split; reflexivity.
Defined.

(** ** The pairwise-energy check *)

(** C2. Take a request whose ["pair_resolved"] keyword is the boolean [True]
    and whose prepared form carries a plan under ["info"], and a backend
    result with an energy and, under ["dftd4"] of its extras as line 133
    reads them, the two pairwise arrays.  When the two sums and the energy
    fail the test of line 135, [compute] ends with [AssertionError] and
    returns nothing.  Otherwise it returns the backend's result, whose
    ["qcvars"] bag has the two summed energies and the two raw arrays under
    their four keys, and the two summed entries pass the same test against
    the returned energy. *)
Theorem pair_resolved_consistency (E : Env) (p : string) (im im' : AtomicInput) (w : world)
    (output : AtomicResult) (info : pyval) (fd : string) (d : gmap string pyval)
    (pw2 pw3 : list float) (ene : float) :
  which_import E = Some p ->
  keywords im !! "pair_resolved" = Some (VBool true) ->
  (prepare E im w).1 = Ok im' ->
  extras im' !! "info" = Some info ->
  subscript info "fctldash" = Ok (VStr fd) ->
  run_qcschema E im' = Ok output ->
  out_extras (merge_extras im' output) !! "dftd4" = Some (VDict d) ->
  d !! "additive pairwise energy" = Some (VArr pw2) ->
  d !! "non-additive pairwise energy" = Some (VArr pw3) ->
  return_energy output = Some ene ->
  (pairwise_consistent (ndarray_sum E pw2) (ndarray_sum E pw3) ene = false ->
     (compute E im w).1 = Raise AssertionError) /\
  (pairwise_consistent (ndarray_sum E pw2) (ndarray_sum E pw3) ene = true ->
     exists final c s2 s3,
       (compute E im w).1 = Ok final /\
       return_energy final = Some ene /\
       return_result final = return_result output /\
       out_extras final !! "qcvars" = Some (VDict c) /\
       c !! "2-BODY DISPERSION CORRECTION ENERGY" = Some (VFloat s2) /\
       c !! "3-BODY DISPERSION CORRECTION ENERGY" = Some (VFloat s3) /\
       c !! "2-BODY PAIRWISE DISPERSION CORRECTION ANALYSIS" = Some (VArr pw2) /\
       c !! "3-BODY PAIRWISE DISPERSION CORRECTION ANALYSIS" = Some (VArr pw3) /\
       s2 = ndarray_sum E pw2 /\
       s3 = ndarray_sum E pw3 /\
       PrimFloat.ltb (PrimFloat.abs (PrimFloat.sub (PrimFloat.add s2 s3) ene)) 1.0e-8%float
         = true).
Proof.
  intros Hp Hkw Hprep Hinfo Hsub Hrun Hd H2 H3 He.
  assert (Hkw' : keywords im' !! "pair_resolved" = Some (VBool true)).
  { pose proof (prepare_ok E im w im' Hprep) as (_ & _ & _ & _ & _ & Hk).
    rewrite Hk by discriminate. exact Hkw. }
  rewrite (compute_of_annotate E p im w im' output Hp Hprep Hrun).
  rewrite (annotate_info E im' output w info fd Hinfo Hsub).
  unfold bind.
  rewrite (pair_resolved_true E im' (merge_extras im' output) _ w d pw2 pw3 ene
             Hkw' Hd H2 H3 He).
  split; intros Hchk; rewrite Hchk; [reflexivity|].
  simpl. eexists. eexists. exists (ndarray_sum E pw2), (ndarray_sum E pw3).
  split; [reflexivity|]. split; [exact He|]. split; [reflexivity|].
  split; [apply lookup_insert_eq|].
  repeat split; try exact Hchk; lookup_entry.
Qed.

Lemma pair_resolved_consistency_witness :
  (compute (Demo.env (-0.5)%float)
     (Demo.request "pbe" energy {[ "pair_resolved" := VBool true ]} ∅) Demo.world0).1
    = Raise AssertionError /\
  exists final c s2 s3,
    (compute (Demo.env (-0.625)%float)
       (Demo.request "pbe" energy {[ "pair_resolved" := VBool true ]} ∅) Demo.world0).1
      = Ok final /\
    out_extras final !! "qcvars" = Some (VDict c) /\
    c !! "2-BODY DISPERSION CORRECTION ENERGY" = Some (VFloat s2) /\
    c !! "3-BODY DISPERSION CORRECTION ENERGY" = Some (VFloat s3) /\
    PrimFloat.ltb (PrimFloat.abs (PrimFloat.sub (PrimFloat.add s2 s3) (-0.625)%float))
      1.0e-8%float = true.
Proof.
  assert (Hkw : keywords (Demo.request "pbe" energy {[ "pair_resolved" := VBool true ]} ∅)
                  !! "pair_resolved" = Some (VBool true)) by reflexivity.
  assert (Hprep : forall ene,
            (prepare (Demo.env ene)
               (Demo.request "pbe" energy {[ "pair_resolved" := VBool true ]} ∅)
               Demo.world0).1
            = Ok (Demo.request "pbe" energy {[ "pair_resolved" := VBool true ]}
                    (<["info" := VDict {[ "fctldash" := VStr "pbe-d4" ]}]> ∅)))
    by (intros ene; reflexivity).
  assert (Hinfo : extras (Demo.request "pbe" energy {[ "pair_resolved" := VBool true ]}
                            (<["info" := VDict {[ "fctldash" := VStr "pbe-d4" ]}]> ∅))
                    !! "info" = Some (VDict {[ "fctldash" := VStr "pbe-d4" ]}))
    by reflexivity.
  assert (Hsub : subscript (VDict {[ "fctldash" := VStr "pbe-d4" ]}) "fctldash"
                 = Ok (VStr "pbe-d4")) by reflexivity.
  split.
  - refine (proj1 (pair_resolved_consistency (Demo.env (-0.5)%float)
                     "site-packages/dftd4/__init__.py" _ _ Demo.world0 _ _ "pbe-d4"
                     Demo.pairwise [(-0.5)%float; (-0.25)%float] [0.125%float] (-0.5)%float
                     eq_refl Hkw (Hprep _) Hinfo Hsub eq_refl _ eq_refl eq_refl eq_refl) _);
      [vm_compute; reflexivity | vm_compute; reflexivity].
  - destruct (proj2 (pair_resolved_consistency (Demo.env (-0.625)%float)
                     "site-packages/dftd4/__init__.py" _ _ Demo.world0 _ _ "pbe-d4"
                     Demo.pairwise [(-0.5)%float; (-0.25)%float] [0.125%float] (-0.625)%float
                     eq_refl Hkw (Hprep _) Hinfo Hsub eq_refl
                     ltac:(vm_compute; reflexivity) eq_refl eq_refl eq_refl)
                ltac:(vm_compute; reflexivity))
      as (final & c & s2 & s3 & Hc & _ & _ & Hq & Hs2 & Hs3 & _ & _ & _ & _ & Hlt).
    exists final, c, s2, s3. auto.
Defined.

(** ** Merging the extras *)

(** The request's extras do not always win: with the demo backend, whose
    result has its own ["qcvars"] entry, a request that carries
    [extras["qcvars"] = None] and resolves to a plan gets the derived bag
    under ["qcvars"], not its own value. *)
Lemma request_extras_win_fails :
  ~ request_extras_win (Demo.env (-0.625)%float)
      (Demo.request "pbe" energy ∅ {[ "qcvars" := VNone ]}) Demo.world0.
Proof.
  intros Hwin.
  destruct (compute (Demo.env (-0.625)%float)
              (Demo.request "pbe" energy ∅ {[ "qcvars" := VNone ]}) Demo.world0).1
    as [final|e] eqn:Hc; [|vm_compute in Hc; discriminate Hc].
  assert (Hprep : (prepare (Demo.env (-0.625)%float)
                     (Demo.request "pbe" energy ∅ {[ "qcvars" := VNone ]}) Demo.world0).1
                  = Ok (Demo.request "pbe" energy ∅
                          (<["info" := VDict {[ "fctldash" := VStr "pbe-d4" ]}]>
                             {[ "qcvars" := VNone ]})))
    by reflexivity.
  assert (Hk : extras (Demo.request "pbe" energy ∅
                         (<["info" := VDict {[ "fctldash" := VStr "pbe-d4" ]}]>
                            {[ "qcvars" := VNone ]})) !! "qcvars" = Some VNone)
    by reflexivity.
  destruct (Hwin _ _ final "qcvars" VNone Hprep eq_refl Hc Hk) as (_ & Hv).
  assert (Hboth : is_Some (Demo.backend_extras !! "qcvars"))
    by (exists (VStr "backend"); reflexivity).
  specialize (Hv Hboth).
  vm_compute in Hc. injection Hc as <-.
  vm_compute in Hv. discriminate Hv.
Qed.


(** * Further properties of the harness *)

(** ** The availability probe *)

Lemma get_version_missing (E : Env) (w : world) :
  which_import E = None ->
  get_version E w = (Raise (ModuleNotFoundError raise_msg), log w [EFound true]).
Proof.
  intros Hp. unfold get_version. unfold bind at 1. now rewrite (found_missing E w Hp).
Qed.

(** X1. Without the [dftd4] package, [found(raise_error=False)] answers
    [False] and does not raise, while [found(raise_error=True)],
    [get_version] and [compute] all raise [ModuleNotFoundError] with the
    install hint.  [get_version] and [compute] stop right after the probe: the
    version is not read, neither the resolver nor the backend is called, and
    the version cache is as it was. *)
Theorem missing_backend_guard (E : Env) (im : AtomicInput) (w : world) :
  which_import E = None ->
  found E false w = (Ok false, log w [EFound false]) /\
  found E true w = (Raise (ModuleNotFoundError raise_msg), log w [EFound true]) /\
  get_version E w = (Raise (ModuleNotFoundError raise_msg), log w [EFound true]) /\
  compute E im w = (Raise (ModuleNotFoundError raise_msg), log w [EFound true]).
Proof.
  intros Hp. split.
  - unfold found, bind, emit. simpl. now rewrite Hp.
  - split; [now apply found_missing|].
    split; [now apply get_version_missing | now apply compute_missing].
Qed.

Lemma missing_backend_guard_witness :
  (compute Demo.absent (Demo.request "pbe" energy ∅ ∅) Demo.world0).1
    = Raise (ModuleNotFoundError "Please install via a dftd4 version with enabled Python API") /\
  trace (compute Demo.absent (Demo.request "pbe" energy ∅ ∅) Demo.world0).2 = [EFound true].
Proof.
  destruct (missing_backend_guard Demo.absent (Demo.request "pbe" energy ∅ ∅) Demo.world0 eq_refl)
    as (_ & _ & _ & H).
  rewrite H. split; reflexivity.
Defined.

(** ** The version cache, continued *)

(** X2. The version cache only grows: whatever [get_version] does, an entry
    that was in the cache before the call is in it afterwards, with the same
    version string. *)
Theorem version_cache_add_only (E : Env) (w : world) (k : option string) (v : string) :
  version_cache w !! k = Some v ->
  version_cache (get_version E w).2 !! k = Some v.
Proof.
  intros Hk. destruct (which_import E) as [p|] eqn:Hp.
  - destruct (version_cache w !! Some p) as [v'|] eqn:Hc.
    + now rewrite (get_version_hit E p v' w Hp Hc).
    + rewrite (get_version_miss E p w Hp Hc). simpl.
      rewrite lookup_insert_ne; [exact Hk|]. intros <-. congruence.
  - now rewrite (get_version_missing E w Hp).
Qed.

Lemma version_cache_add_only_witness :
  version_cache
    (get_version (Demo.env 0%float)
       {| version_cache := {[ Some "elsewhere/dftd4/__init__.py" := "3.0.0" ]}; trace := [] |}).2
    !! Some "elsewhere/dftd4/__init__.py" = Some "3.0.0".
Proof.
  apply (version_cache_add_only (Demo.env 0%float)
           {| version_cache := {[ Some "elsewhere/dftd4/__init__.py" := "3.0.0" ]}; trace := [] |}).
  reflexivity.
Defined.

(** X3. A cached version is never refreshed.  Once [get_version] has stored
    the version for the origin [p], a later call in an environment where the
    package at [p] reports another version still returns the stored string,
    and does not read [dftd4.__version__]. *)
Theorem version_cache_never_refreshed (E E' : Env) (p : string) (w : world) :
  which_import E = Some p ->
  which_import E' = Some p ->
  version_cache w !! Some p = None ->
  exists w1 w2,
    get_version E w = (Ok (safe_version E (dftd4_version E)), w1) /\
    get_version E' w1 = (Ok (safe_version E (dftd4_version E)), w2) /\
    version_reads (trace w2) = version_reads (trace w1).
Proof.
  intros Hp Hp' Hc. do 2 eexists.
  split; [apply (get_version_miss E p w Hp Hc)|].
  split.
  - apply (get_version_hit E' p _ _ Hp'). simpl. apply lookup_insert_eq.
  - simpl. rewrite (version_reads_app (trace w ++ _) [EFound true]).
    change (version_reads [EFound true]) with 0. lia.
Qed.

Lemma version_cache_never_refreshed_witness :
  exists w1 w2,
    get_version (Demo.env 0%float) Demo.world0 = (Ok "3.5.0", w1) /\
    get_version Demo.upgraded w1 = (Ok "3.5.0", w2) /\
    version_reads (trace w2) = version_reads (trace w1).
Proof.
  apply (version_cache_never_refreshed (Demo.env 0%float) Demo.upgraded
           "site-packages/dftd4/__init__.py" Demo.world0); reflexivity.
Defined.

(** ** The request handed to the backend *)

Lemma substring_slice (n : nat) (s : string) :
  s = String.substring 0 n s +:+ PyStr.slice_from n s.
Proof.
  revert s. induction n as [|n IH]; intros [|c s]; try reflexivity.
  change (String c s = String c (String.substring 0 n s +:+ PyStr.slice_from n s)).
  now rewrite <- IH.
Qed.

Lemma startswith_d4 (s : string) :
  PyStr.startswith s "d4-" = true -> s = "d4-" +:+ PyStr.slice_from 3 s.
Proof.
  unfold PyStr.startswith. intros Hs.
  apply String.prefix_correct in Hs. change (String.length "d4-") with 3 in Hs.
  rewrite (substring_slice 3 s) at 1. now rewrite Hs.
Qed.

Lemma strip_engine_hint_piece (im : AtomicInput) :
  exists pre, (pre = "" \/ pre = "d4-") /\ model_method im = pre +:+ mtd (strip_engine_hint im).
Proof.
  unfold strip_engine_hint. destruct (PyStr.startswith _ _) eqn:Hs; simpl.
  - exists "d4-". split; [now right | now apply startswith_d4].
  - exists "". split; [now left | reflexivity].
Qed.

Lemma strip_level_step_piece wk it :
  exists rest, mtd wk = mtd (strip_level_step wk it) +:+ rest.
Proof.
  destruct it as [alias d4]. unfold strip_level_step.
  destruct (_ && _); simpl.
  - eexists. unfold PyStr.slice_to_neg. apply substring_slice.
  - exists "". clear. induction (mtd wk) as [|c s IH]; [reflexivity|].
    change (String c s = String c (s +:+ "")). now rewrite <- IH.
Qed.

Lemma strip_dispersion_level_piece (E : Env) wk :
  exists rest, mtd wk = mtd (strip_dispersion_level E wk) +:+ rest.
Proof.
  unfold strip_dispersion_level.
  generalize (get_dispersion_aliases E) as tbl. intros tbl. revert wk.
  induction tbl as [|it tbl IH]; intros wk; simpl.
  - destruct (strip_level_step_piece wk ("", "")) as [rest Hr]. now exists rest.
  - destruct (IH (strip_level_step wk it)) as [r1 H1].
    destruct (strip_level_step_piece wk it) as [r2 H2].
    exists (r1 +:+ r2). now rewrite H2, H1 at 1; rewrite str_app_assoc.
Qed.

Lemma prepare_inv (E : Env) im w im' :
  (prepare E im w).1 = Ok im' ->
  exists wk' w1 w2,
    consolidate_level_hint E im
      (strip_dispersion_level E
         (stash_plan (resolver_result E im (mtd (strip_engine_hint im))) (strip_engine_hint im)))
      w1 = (Ok wk', w2) /\
    im' = input_data wk'.
Proof.
  intros Hok. rewrite prepare_eq in Hok.
  destruct (propagated _); [discriminate|]. unfold bind in Hok.
  destruct (consolidate_level_hint E im _ _) as [[wk'|e] w2] eqn:Hc; [|discriminate].
  simpl in Hok. injection Hok as <-. eexists wk', _, w2. split; [exact Hc | reflexivity].
Qed.

Lemma prepared_keywords_base (E : Env) im :
  keywords (input_data
              (strip_dispersion_level E
                 (stash_plan (resolver_result E im (mtd (strip_engine_hint im)))
                    (strip_engine_hint im)))) = keywords im.
Proof.
  destruct (strip_dispersion_level_frame E
              (stash_plan (resolver_result E im (mtd (strip_engine_hint im)))
                 (strip_engine_hint im))) as (_ & _ & -> & _).
  destruct (strip_engine_hint_frame im) as (_ & _ & Hk & _).
  now destruct (resolver_result E im _).
Qed.

(** X4. The request handed to the backend keeps the molecule and the driver
    of the original request, every keyword but ["level_hint"] and every extra
    but ["info"].  Its method is a piece of the requested method: what is left
    after taking an optional ["d4-"] off the front and some characters off the
    end; no character is changed or added.  When the backend is installed, it
    is the request of the last call that [compute] logs. *)
Theorem prepared_request_frame (E : Env) (im im' : AtomicInput) (w : world) :
  (prepare E im w).1 = Ok im' ->
  molecule im' = molecule im /\
  driver im' = driver im /\
  (forall k, k <> "level_hint" -> keywords im' !! k = keywords im !! k) /\
  (forall k, k <> "info" -> extras im' !! k = extras im !! k) /\
  (exists pre rest,
     (pre = "" \/ pre = "d4-") /\ model_method im = pre +:+ model_method im' +:+ rest) /\
  (forall p, which_import E = Some p ->
     last (trace (compute E im w).2) = Some (ERunQcschema im')).
Proof.
  intros Hok.
  pose proof (prepare_ok E im w im' Hok) as (_ & Hm & Hmol & Hdrv & Hx & Hkw).
  split; [exact Hmol|]. split; [exact Hdrv|]. split; [exact Hkw|]. split; [|split].
  - intros k Hk. rewrite Hx.
    destruct (strip_engine_hint_frame im) as (_ & _ & _ & Hex).
    destruct (resolver_result E im _); simpl; rewrite ?Hex; [|reflexivity].
    now rewrite lookup_insert_ne by congruence.
  - destruct (strip_engine_hint_piece im) as (pre & Hpre & Hp).
    destruct (strip_dispersion_level_piece E (strip_engine_hint im)) as (rest & Hr).
    exists pre, rest. split; [exact Hpre|]. now rewrite Hm, <- Hr.
  - intros p Hp. destruct (compute_trace E p im w Hp) as (tl & Htl & Hcase).
    rewrite Hok in Hcase. subst tl. rewrite Htl.
    change (EFound true :: resolver_call im (mtd (strip_engine_hint im)) :: [ERunQcschema im'])
      with ([EFound true; resolver_call im (mtd (strip_engine_hint im))] ++ [ERunQcschema im'])%list.
    now rewrite (assoc_L (++)), last_snoc.
Qed.

Lemma prepared_request_frame_witness :
  exists im',
    (prepare (Demo.env 0%float)
       (Demo.request "d4-PBE-D4BJ" gradient {[ "level_hint" := VStr "D4BJ"; "s9" := VInt 0 ]}
          {[ "job" := VStr "mine" ]}) Demo.world0).1 = Ok im' /\
    driver im' = gradient /\
    keywords im' !! "s9" = Some (VInt 0) /\
    extras im' !! "job" = Some (VStr "mine") /\
    model_method im' = "PBE".
Proof.
  destruct (prepare (Demo.env 0%float)
              (Demo.request "d4-PBE-D4BJ" gradient {[ "level_hint" := VStr "D4BJ"; "s9" := VInt 0 ]}
                 {[ "job" := VStr "mine" ]}) Demo.world0).1 as [im'|e] eqn:Hp;
    [|vm_compute in Hp; discriminate Hp].
  destruct (prepared_request_frame (Demo.env 0%float) _ im' Demo.world0 Hp)
    as (_ & Hd & Hk & Hx & _).
  exists im'. split; [reflexivity|]. split; [exact Hd|].
  split; [rewrite Hk by discriminate; reflexivity|].
  split; [rewrite Hx by discriminate; reflexivity|].
  vm_compute in Hp. injection Hp as <-. reflexivity.
Defined.

(** ** The alias loop, continued *)

(** X5. The alias loop strips nothing but levels tagged ["d4bj"]: when the
    lowercased method ends with none of the aliases that carry this tag, the
    loop leaves the working copy exactly as it was, whatever other aliases
    (for ["d3bj"], say) the method ends with. *)
Theorem alias_loop_untouched (E : Env) (wk : work) :
  (forall alias, In (alias, "d4bj") (get_dispersion_aliases E) ->
     PyStr.endswith (PyStr.lower (mtd wk)) alias = false) ->
  strip_dispersion_level E wk = wk.
Proof.
  unfold strip_dispersion_level.
  generalize (get_dispersion_aliases E) as tbl. intros tbl.
  induction tbl as [|[alias d4] tbl IH]; intros Hno; [reflexivity|].
  cbn [fold_left].
  assert (Hstep : strip_level_step wk (alias, d4) = wk).
  { unfold strip_level_step. destruct (String.eqb d4 "d4bj") eqn:Hd; [|reflexivity].
    apply String.eqb_eq in Hd. subst d4.
    rewrite (Hno alias); [reflexivity | now left]. }
  rewrite Hstep. apply IH. intros a Ha. apply Hno. now right.
Qed.

Lemma alias_loop_untouched_witness :
  strip_dispersion_level (Demo.env 0%float)
    (strip_engine_hint (Demo.request "b3lyp-d3bj" energy ∅ ∅))
  = strip_engine_hint (Demo.request "b3lyp-d3bj" energy ∅ ∅).
Proof.
  apply (alias_loop_untouched (Demo.env 0%float)).
  intros alias Hin. simpl in Hin.
  repeat (destruct Hin as [Hin|Hin];
          [injection Hin as <-; try discriminate; reflexivity|]).
  destruct Hin.
Defined.

(** X6. When the method is, up to case, exactly an alias tagged ["d4bj"],
    the iteration for that alias leaves the empty method: the cut of
    [len(alias) + 1] characters is longer than the method and the slice is
    clipped at its start. *)
Theorem alias_only_method_emptied (wk : work) (alias : string) :
  PyStr.lower (mtd wk) = alias ->
  strip_level_step wk (alias, "d4bj") =
    {| mtd := ""; input_data := set_method (input_data wk) "" |}.
Proof.
  intros Hl. unfold strip_level_step. rewrite Hl.
  assert (Hend : PyStr.endswith alias alias = true) by apply (endswith_app "" alias).
  rewrite Hend. simpl.
  assert (Hlen : String.length (mtd wk) = String.length alias)
    by (rewrite <- Hl; symmetry; apply map_ascii_length).
  unfold PyStr.slice_to_neg. rewrite Hlen.
  replace (String.length alias - (String.length alias + 1)) with 0 by lia.
  now destruct (mtd wk).
Qed.

Lemma alias_only_method_emptied_witness :
  mtd (strip_level_step (strip_engine_hint (Demo.request "D4" energy ∅ ∅)) ("d4", "d4bj")) = "".
Proof.
  rewrite (alias_only_method_emptied (strip_engine_hint (Demo.request "D4" energy ∅ ∅)) "d4" eq_refl).
  reflexivity.
Defined.

(** ** The level hint, continued *)

Section LevelHint.

Context (E : Env).

Lemma consolidate_hit im wk w (s : string) :
  keywords im !! "level_hint" = Some (VStr s) ->
  s <> "" ->
  alias_index (get_dispersion_aliases E) (PyStr.lower s) = Ok "d4bj" ->
  consolidate_level_hint E im wk w =
    (Ok {| mtd := mtd wk; input_data := set_keyword (input_data wk) "level_hint" (VStr "d4") |}, w).
Proof.
  intros Hk Hs Ha. unfold consolidate_level_hint, dict_get. rewrite Hk. simpl.
  rewrite bind_lift. destruct s as [|c s]; [congruence|]. simpl.
  rewrite bind_lift, bind_lift. now rewrite Ha.
Qed.

Lemma consolidate_other im wk w (s d4 : string) :
  keywords im !! "level_hint" = Some (VStr s) ->
  s <> "" ->
  alias_index (get_dispersion_aliases E) (PyStr.lower s) = Ok d4 ->
  d4 <> "d4bj" ->
  consolidate_level_hint E im wk w = (Ok wk, w).
Proof.
  intros Hk Hs Ha Hd. unfold consolidate_level_hint, dict_get. rewrite Hk. simpl.
  rewrite bind_lift. destruct s as [|c s]; [congruence|]. simpl.
  rewrite bind_lift, bind_lift. rewrite Ha.
  destruct (String.eqb d4 "d4bj") eqn:He; [|reflexivity].
  apply String.eqb_eq in He. congruence.
Qed.

Lemma consolidate_falsy im wk w :
  truthy (dict_get (keywords im) "level_hint") = Ok false ->
  consolidate_level_hint E im wk w = (Ok wk, w).
Proof.
  intros Ht. unfold consolidate_level_hint. now rewrite bind_lift, Ht.
Qed.

Lemma consolidate_not_str im wk w :
  truthy (dict_get (keywords im) "level_hint") = Ok true ->
  (forall s, dict_get (keywords im) "level_hint" <> VStr s) ->
  consolidate_level_hint E im wk w = (Raise AttributeError, w).
Proof.
  intros Ht Hns. unfold consolidate_level_hint. rewrite bind_lift, Ht, bind_lift.
  destruct (dict_get (keywords im) "level_hint"); try reflexivity.
  exfalso. now apply (Hns s).
Qed.

End LevelHint.

(** X7. A level hint that names, in any case, an alias of the table: when the
    alias is tagged ["d4bj"], the request handed to the backend carries
    [level_hint = "d4"] and otherwise the keywords of the original request;
    when the alias carries another tag, the keywords are handed on unchanged. *)
Theorem level_hint_consolidated (E : Env) (im im' : AtomicInput) (w : world) (s d4 : string) :
  keywords im !! "level_hint" = Some (VStr s) ->
  s <> "" ->
  alias_index (get_dispersion_aliases E) (PyStr.lower s) = Ok d4 ->
  (prepare E im w).1 = Ok im' ->
  keywords im' =
    if String.eqb d4 "d4bj" then <["level_hint" := VStr "d4"]> (keywords im) else keywords im.
Proof.
  intros Hk Hs Ha Hok.
  destruct (prepare_inv E im w im' Hok) as (wk' & w1 & w2 & Hc & ->).
  destruct (String.eqb d4 "d4bj") eqn:Hd.
  - apply String.eqb_eq in Hd. subst d4.
    rewrite (consolidate_hit E im _ w1 s Hk Hs Ha) in Hc. injection Hc as <- _.
    simpl. now rewrite prepared_keywords_base.
  - assert (Hne : d4 <> "d4bj") by (intros ->; now rewrite String.eqb_refl in Hd).
    rewrite (consolidate_other E im _ w1 s d4 Hk Hs Ha Hne) in Hc. injection Hc as <- _.
    apply prepared_keywords_base.
Qed.

Lemma level_hint_consolidated_witness :
  exists im',
    (prepare (Demo.env 0%float) (Demo.request "pbe" energy {[ "level_hint" := VStr "D4BJ" ]} ∅)
       Demo.world0).1 = Ok im' /\
    keywords im' !! "level_hint" = Some (VStr "d4").
Proof.
  destruct (prepare (Demo.env 0%float)
              (Demo.request "pbe" energy {[ "level_hint" := VStr "D4BJ" ]} ∅) Demo.world0).1
    as [im'|e] eqn:Hp; [|vm_compute in Hp; discriminate Hp].
  assert (Hk : keywords (Demo.request "pbe" energy {[ "level_hint" := VStr "D4BJ" ]} ∅)
                 !! "level_hint" = Some (VStr "D4BJ")) by reflexivity.
  assert (Hs : "D4BJ" <> "") by discriminate.
  pose proof (level_hint_consolidated (Demo.env 0%float) _ im' Demo.world0 "D4BJ" "d4bj"
                Hk Hs eq_refl Hp) as H.
  exists im'. split; [reflexivity|]. rewrite H. reflexivity.
Defined.

(** X8. The edges of the level hint.  A hint that is absent, [None], the
    empty string or otherwise false is never looked up: the keywords are
    handed on unchanged, whatever the alias table holds.  A hint that is true
    but not a string has no [lower()]: with the backend installed and no
    exception from the resolver, [compute] ends with [AttributeError] and the
    backend is not called. *)
Theorem level_hint_edges (E : Env) (im : AtomicInput) (w : world) :
  (truthy (dict_get (keywords im) "level_hint") = Ok false ->
     forall im', (prepare E im w).1 = Ok im' -> keywords im' = keywords im) /\
  (truthy (dict_get (keywords im) "level_hint") = Ok true ->
     (forall s, dict_get (keywords im) "level_hint" <> VStr s) ->
     forall p, which_import E = Some p ->
       propagated (resolver_result E im (mtd (strip_engine_hint im))) = None ->
       (compute E im w).1 = Raise AttributeError /\
       delegate_calls (trace (compute E im w).2) = delegate_calls (trace w)).
Proof.
  split.
  - intros Ht im' Hok.
    destruct (prepare_inv E im w im' Hok) as (wk' & w1 & w2 & Hc & ->).
    rewrite (consolidate_falsy E im _ w1 Ht) in Hc. injection Hc as <- _.
    apply prepared_keywords_base.
  - intros Ht Hns p Hp Hnone.
    apply (delegate_calls_failed_prepare E p im w AttributeError Hp).
    rewrite prepare_eq, Hnone. unfold bind.
    now rewrite (consolidate_not_str E im _ _ Ht Hns).
Qed.

Lemma level_hint_edges_witness :
  (forall im',
     (prepare (Demo.env 0%float) (Demo.request "pbe" energy {[ "level_hint" := VStr "" ]} ∅)
        Demo.world0).1 = Ok im' ->
     keywords im' = {[ "level_hint" := VStr "" ]}) /\
  (compute (Demo.env 0%float) (Demo.request "pbe" energy {[ "level_hint" := VInt 4 ]} ∅)
     Demo.world0).1 = Raise AttributeError.
Proof.
  destruct (level_hint_edges (Demo.env 0%float)
              (Demo.request "pbe" energy {[ "level_hint" := VStr "" ]} ∅) Demo.world0)
    as (H1 & _).
  destruct (level_hint_edges (Demo.env 0%float)
              (Demo.request "pbe" energy {[ "level_hint" := VInt 4 ]} ∅) Demo.world0)
    as (_ & H2).
  split.
  - apply H1. reflexivity.
  - refine (proj1 (H2 _ _ "site-packages/dftd4/__init__.py" eq_refl eq_refl)).
    + reflexivity.
    + intros s Hs. vm_compute in Hs. discriminate Hs.
Defined.

(** ** What [compute] leaves alone *)

Lemma compute_world (E : Env) (p : string) im w :
  which_import E = Some p ->
  exists tl,
    (compute E im w).2 =
      log w (EFound true :: resolver_call im (mtd (strip_engine_hint im)) :: tl) /\
    match (prepare E im w).1 with
    | Ok im' => tl = [ERunQcschema im']
    | Raise _ => tl = []
    end.
Proof.
  intros Hp. rewrite (compute_eq E p im w Hp).
  pose proof (prepare_log E im (log w [EFound true])) as Hlog.
  rewrite (prepare_value E im w (log w [EFound true])).
  destruct (prepare E im (log w [EFound true])) as [[im'|e] w1]; simpl in *; subst w1.
  - exists [ERunQcschema im']. split; [|reflexivity].
    destruct (run_qcschema E im'); unfold log; simpl; now rewrite <- !(assoc_L (++)).
  - exists []. split; [|reflexivity]. unfold log; simpl. now rewrite <- !(assoc_L (++)).
Qed.

(** X9. [compute] never touches the version cache and never reads
    [dftd4.__version__], and it calls the backend at most once, whatever the
    request and the environment. *)
Theorem compute_side_effects (E : Env) (im : AtomicInput) (w : world) :
  version_cache (compute E im w).2 = version_cache w /\
  version_reads (trace (compute E im w).2) = version_reads (trace w) /\
  delegate_calls (trace (compute E im w).2) <= S (delegate_calls (trace w)).
Proof.
  destruct (which_import E) as [p|] eqn:Hp.
  - destruct (compute_world E p im w Hp) as (tl & Hw & Hcase). rewrite Hw. simpl.
    rewrite version_reads_app, delegate_calls_app.
    destruct ((prepare E im w).1); subst tl; unfold resolver_call;
      unfold version_reads at 2; unfold delegate_calls at 2; simpl; repeat split; lia.
  - rewrite (compute_missing E im w Hp). simpl.
    rewrite version_reads_app, delegate_calls_app.
    unfold version_reads at 2; unfold delegate_calls at 2; simpl. repeat split; lia.
Qed.

Lemma annotate_numbers (E : Env) im output w final :
  (annotate E im output w).1 = Ok final ->
  return_energy final = return_energy output /\
  return_result final = return_result output.
Proof.
  unfold annotate. destruct (extras im !! "info") as [info|].
  - rewrite bind_lift. destruct (subscript info "fctldash") as [fd|]; [|discriminate].
    rewrite bind_lift. destruct (str_upper fd) as [qcvkey|]; [|discriminate].
    unfold bind. destruct (pair_resolved_entries E im _ _ w) as [[c|e] w']; [|discriminate].
    simpl. intros [= <-]. auto.
  - simpl. intros [= <-]. auto.
Qed.

(** X10. A result that [compute] returns comes from exactly one call of the
    backend, made with the prepared request, and carries the energy and the
    return value exactly as the backend gave them: [compute] changes nothing
    but the extras. *)
Theorem returned_numbers_untouched (E : Env) (im : AtomicInput) (w : world)
    (final : AtomicResult) :
  (compute E im w).1 = Ok final ->
  exists im' output,
    (prepare E im w).1 = Ok im' /\
    run_qcschema E im' = Ok output /\
    return_energy final = return_energy output /\
    return_result final = return_result output /\
    delegate_calls (trace (compute E im w).2) = S (delegate_calls (trace w)).
Proof.
  intros Hc.
  destruct (compute_ok E im w final Hc) as (im' & output & Hprep & Hrun & Ha).
  destruct (annotate_numbers E im' output w final Ha) as (He & Hr).
  exists im', output. repeat split; try assumption.
  destruct (which_import E) as [p|] eqn:Hp.
  - destruct (compute_world E p im w Hp) as (tl & Hw & Hcase).
    rewrite Hprep in Hcase. subst tl. rewrite Hw. simpl.
    rewrite delegate_calls_app. unfold resolver_call. unfold delegate_calls at 2. simpl. lia.
  - rewrite (compute_missing E im w Hp) in Hc. discriminate.
Qed.

Lemma returned_numbers_untouched_witness :
  exists final,
    (compute (Demo.env (-0.625)%float) (Demo.request "pbe" gradient ∅ ∅) Demo.world0).1
      = Ok final /\
    return_energy final = Some (-0.625)%float /\
    return_result final = VArr [0%float; 0%float; 0%float].
Proof.
  destruct (compute (Demo.env (-0.625)%float) (Demo.request "pbe" gradient ∅ ∅) Demo.world0).1
    as [final|e] eqn:Hc; [|vm_compute in Hc; discriminate Hc].
  destruct (returned_numbers_untouched (Demo.env (-0.625)%float) _ Demo.world0 final Hc)
    as (im' & output & Hprep & Hrun & He & Hr & _).
  exists final. split; [reflexivity|]. rewrite He, Hr.
  vm_compute in Hprep. injection Hprep as <-.
  vm_compute in Hrun. injection Hrun as <-.
  split; reflexivity.
Defined.

(** X11. An exception of the backend is the outcome of [compute], unchanged;
    the backend has then been called once, with the prepared request. *)
Theorem backend_error_propagates (E : Env) (p : string) (im im' : AtomicInput) (w : world)
    (e : exn) :
  which_import E = Some p ->
  (prepare E im w).1 = Ok im' ->
  run_qcschema E im' = Raise e ->
  (compute E im w).1 = Raise e /\
  last (trace (compute E im w).2) = Some (ERunQcschema im') /\
  delegate_calls (trace (compute E im w).2) = S (delegate_calls (trace w)).
Proof.
  intros Hp Hprep Hrun. split.
  - rewrite (compute_eq E p im w Hp).
    rewrite (prepare_value E im w (log w [EFound true])) in Hprep.
    destruct (prepare E im (log w [EFound true])) as [[im''|e'] w1]; simpl in Hprep;
      [|discriminate].
    injection Hprep as ->. now rewrite Hrun.
  - destruct (compute_world E p im w Hp) as (tl & Hw & Hcase).
    rewrite Hprep in Hcase. subst tl. rewrite Hw. simpl. split.
    + change (EFound true :: resolver_call im (mtd (strip_engine_hint im)) :: [ERunQcschema im'])
        with ([EFound true; resolver_call im (mtd (strip_engine_hint im))]
                ++ [ERunQcschema im'])%list.
      now rewrite !(assoc_L (++)), last_snoc.
    + rewrite delegate_calls_app. unfold resolver_call. unfold delegate_calls at 2. simpl. lia.
Qed.

Lemma backend_error_propagates_witness :
  (compute Demo.failing (Demo.request "pbe" energy ∅ ∅) Demo.world0).1
    = Raise (OtherError "ValidationError").
Proof.
  refine (proj1 (backend_error_propagates Demo.failing "site-packages/dftd4/__init__.py"
                   (Demo.request "pbe" energy ∅ ∅)
                   (Demo.request "pbe" energy ∅
                      (<["info" := VDict {[ "fctldash" := VStr "pbe-d4" ]}]> ∅))
                   Demo.world0 (OtherError "ValidationError") eq_refl _ eq_refl));
    reflexivity.
Defined.

(** ** Annotation, continued *)

(** X12. Without a plan there is no ["qcvars"] of the harness's making.
    When the resolver raised the swallowed [InputError] and the request has
    no ["info"] extra, a result [compute] returns is the backend's result with
    the request's extras written over its own, and nothing else. *)
Theorem no_plan_plain_merge (E : Env) (im : AtomicInput) (w : world) (msg : string)
    (final : AtomicResult) :
  resolver_result E im (mtd (strip_engine_hint im)) = Raise (InputError msg) ->
  extras im !! "info" = None ->
  (compute E im w).1 = Ok final ->
  exists im' output,
    (prepare E im w).1 = Ok im' /\
    run_qcschema E im' = Ok output /\
    final = {| return_energy := return_energy output;
               return_result := return_result output;
               out_extras := extras im ∪ out_extras output |}.
Proof.
  intros Hres Hno Hc.
  destruct (compute_ok E im w final Hc) as (im' & output & Hprep & Hrun & Ha).
  exists im', output. split; [exact Hprep|]. split; [exact Hrun|].
  pose proof (prepare_ok E im w im' Hprep) as (_ & _ & _ & _ & Hx & _).
  rewrite Hres in Hx. simpl in Hx.
  destruct (strip_engine_hint_frame im) as (_ & _ & _ & Hex). rewrite Hex in Hx.
  rewrite annotate_no_info in Ha by (now rewrite Hx).
  simpl in Ha. injection Ha as <-. unfold merge_extras, set_out_extras. now rewrite Hx.
Qed.

Lemma no_plan_plain_merge_witness :
  exists final,
    (compute (Demo.env 0%float) (Demo.request "bogus" energy ∅ {[ "job" := VStr "mine" ]})
       Demo.world0).1 = Ok final /\
    out_extras final = {[ "job" := VStr "mine" ]} ∪ Demo.backend_extras.
Proof.
  destruct (compute (Demo.env 0%float) (Demo.request "bogus" energy ∅ {[ "job" := VStr "mine" ]})
              Demo.world0).1 as [final|e] eqn:Hc; [|vm_compute in Hc; discriminate Hc].
  assert (Hno : extras (Demo.request "bogus" energy ∅ {[ "job" := VStr "mine" ]})
                  !! "info" = None) by reflexivity.
  destruct (no_plan_plain_merge (Demo.env 0%float)
              (Demo.request "bogus" energy ∅ {[ "job" := VStr "mine" ]})
              Demo.world0 "unknown functional" final
              eq_refl Hno Hc) as (im' & output & _ & Hrun & ->).
  eexists. split; [reflexivity|]. simpl.
  simpl in Hrun. unfold Demo.backend in Hrun. injection Hrun as <-. reflexivity.
Defined.

(** X13. The annotation looks at the prepared request's extras, not at
    whether the resolver succeeded.  When the resolver raised the swallowed
    [InputError] and the request itself came with an ["info"] extra that has
    no ["fctldash"] to give, [compute] calls the backend and then ends with
    the exception of that lookup; when the entry is there but is not a string,
    it ends with [AttributeError]. *)
Theorem request_info_taken_for_plan (E : Env) (p : string) (im im' : AtomicInput) (w : world)
    (msg : string) (info : pyval) (output : AtomicResult) :
  which_import E = Some p ->
  resolver_result E im (mtd (strip_engine_hint im)) = Raise (InputError msg) ->
  extras im !! "info" = Some info ->
  (prepare E im w).1 = Ok im' ->
  run_qcschema E im' = Ok output ->
  delegate_calls (trace (compute E im w).2) = S (delegate_calls (trace w)) /\
  (forall e, subscript info "fctldash" = Raise e -> (compute E im w).1 = Raise e) /\
  (forall v, subscript info "fctldash" = Ok v -> (forall s, v <> VStr s) ->
     (compute E im w).1 = Raise AttributeError).
Proof.
  intros Hp Hres Hinfo Hprep Hrun.
  pose proof (prepare_ok E im w im' Hprep) as (_ & _ & _ & _ & Hx & _).
  rewrite Hres in Hx. simpl in Hx.
  destruct (strip_engine_hint_frame im) as (_ & _ & _ & Hex). rewrite Hex in Hx.
  assert (Hi : extras im' !! "info" = Some info) by (now rewrite Hx).
  split; [|split].
  - destruct (compute_world E p im w Hp) as (tl & Hw & Hcase).
    rewrite Hprep in Hcase. subst tl. rewrite Hw. simpl.
    rewrite delegate_calls_app. unfold resolver_call. unfold delegate_calls at 2. simpl. lia.
  - intros e He. rewrite (compute_of_annotate E p im w im' output Hp Hprep Hrun).
    unfold annotate. now rewrite Hi, bind_lift, He.
  - intros v Hv Hns. rewrite (compute_of_annotate E p im w im' output Hp Hprep Hrun).
    unfold annotate. rewrite Hi, bind_lift, Hv, bind_lift.
    destruct v; try reflexivity. exfalso. now apply (Hns s).
Qed.

Lemma request_info_taken_for_plan_witness :
  (compute (Demo.env 0%float) (Demo.request "bogus" energy ∅ {[ "info" := VStr "note" ]})
     Demo.world0).1 = Raise TypeError.
Proof.
  refine (proj1 (proj2 (request_info_taken_for_plan (Demo.env 0%float)
                          "site-packages/dftd4/__init__.py"
                          (Demo.request "bogus" energy ∅ {[ "info" := VStr "note" ]})
                          (Demo.request "bogus" energy ∅ {[ "info" := VStr "note" ]})
                          Demo.world0 "unknown functional" (VStr "note") _
                          eq_refl eq_refl _ _ eq_refl)) TypeError eq_refl);
    reflexivity.
Defined.

Lemma pair_resolved_skip (E : Env) im output c w :
  keywords im !! "pair_resolved" <> Some (VBool true) ->
  pair_resolved_entries E im output c w = (Ok c, w).
Proof.
  intros Hk. unfold pair_resolved_entries.
  destruct (keywords im !! "pair_resolved") as [[| [|] | | | | | |]|]; try reflexivity.
  congruence.
Qed.

(** X14. The [pair_resolved] block runs for the boolean [True] only.  For
    any other value of the keyword (absent, [False], [1], ["true"], ...) a
    request with a plan always gets its result back, whatever the backend's
    extras hold, and the ["qcvars"] bag is exactly the energy and gradient
    entries. *)
Theorem pair_resolved_only_for_true (E : Env) (p : string) (im im' : AtomicInput) (w : world)
    (info : pyval) (fd : string) (output : AtomicResult) :
  which_import E = Some p ->
  keywords im !! "pair_resolved" <> Some (VBool true) ->
  (prepare E im w).1 = Ok im' ->
  extras im' !! "info" = Some info ->
  subscript info "fctldash" = Ok (VStr fd) ->
  run_qcschema E im' = Ok output ->
  (compute E im w).1 =
    Ok {| return_energy := return_energy output;
          return_result := return_result output;
          out_extras :=
            <["qcvars" := VDict (base_entries im' (merge_extras im' output) (PyStr.upper fd))]>
              (extras im' ∪ out_extras output) |}.
Proof.
  intros Hp Hkw Hprep Hinfo Hsub Hrun.
  assert (Hkw' : keywords im' !! "pair_resolved" <> Some (VBool true)).
  { pose proof (prepare_ok E im w im' Hprep) as (_ & _ & _ & _ & _ & Hk).
    now rewrite Hk by discriminate. }
  rewrite (compute_of_annotate E p im w im' output Hp Hprep Hrun).
  rewrite (annotate_info E im' output w info fd Hinfo Hsub).
  unfold bind. now rewrite (pair_resolved_skip E im' _ _ w Hkw').
Qed.

Lemma pair_resolved_only_for_true_witness :
  exists final c,
    (compute (Demo.env 7%float) (Demo.request "pbe" energy {[ "pair_resolved" := VInt 1 ]} ∅)
       Demo.world0).1 = Ok final /\
    out_extras final !! "qcvars" = Some (VDict c) /\
    c !! "2-BODY DISPERSION CORRECTION ENERGY" = None.
Proof.
  assert (Hkw : keywords (Demo.request "pbe" energy {[ "pair_resolved" := VInt 1 ]} ∅)
                  !! "pair_resolved" <> Some (VBool true)) by (vm_compute; discriminate).
  assert (Hprep : (prepare (Demo.env 7%float)
                     (Demo.request "pbe" energy {[ "pair_resolved" := VInt 1 ]} ∅)
                     Demo.world0).1
                  = Ok (Demo.request "pbe" energy {[ "pair_resolved" := VInt 1 ]}
                          (<["info" := VDict {[ "fctldash" := VStr "pbe-d4" ]}]> ∅)))
    by reflexivity.
  pose proof (pair_resolved_only_for_true (Demo.env 7%float) "site-packages/dftd4/__init__.py"
                _ _ Demo.world0 (VDict {[ "fctldash" := VStr "pbe-d4" ]}) "pbe-d4" _
                eq_refl Hkw Hprep eq_refl eq_refl eq_refl) as H.
  do 2 eexists. split; [exact H|]. split; [apply lookup_insert_eq|].
  vm_compute. reflexivity.
Defined.

(** X15. With [pair_resolved] set to [True] the backend's extras must carry
    the arrays: when the merged extras have no ["dftd4"] entry [compute] ends
    with [KeyError("dftd4")], and when that entry is a dict without the
    additive array it ends with [KeyError("additive pairwise energy")]. *)
Theorem pair_resolved_missing_data (E : Env) (p : string) (im im' : AtomicInput) (w : world)
    (info : pyval) (fd : string) (output : AtomicResult) :
  which_import E = Some p ->
  keywords im !! "pair_resolved" = Some (VBool true) ->
  (prepare E im w).1 = Ok im' ->
  extras im' !! "info" = Some info ->
  subscript info "fctldash" = Ok (VStr fd) ->
  run_qcschema E im' = Ok output ->
  (out_extras (merge_extras im' output) !! "dftd4" = None ->
     (compute E im w).1 = Raise (KeyError "dftd4")) /\
  (forall d, out_extras (merge_extras im' output) !! "dftd4" = Some (VDict d) ->
     d !! "additive pairwise energy" = None ->
     (compute E im w).1 = Raise (KeyError "additive pairwise energy")).
Proof.
  intros Hp Hkw Hprep Hinfo Hsub Hrun.
  assert (Hkw' : keywords im' !! "pair_resolved" = Some (VBool true)).
  { pose proof (prepare_ok E im w im' Hprep) as (_ & _ & _ & _ & _ & Hk).
    now rewrite Hk by discriminate. }
  rewrite (compute_of_annotate E p im w im' output Hp Hprep Hrun).
  rewrite (annotate_info E im' output w info fd Hinfo Hsub).
  split.
  - intros Hd.
    match goal with
    | |- context [pair_resolved_entries E im' ?o ?c] =>
        assert (Hpr : pair_resolved_entries E im' o c w = (Raise (KeyError "dftd4"), w))
    end.
    { unfold pair_resolved_entries. rewrite Hkw', bind_lift.
      unfold dict_index. now rewrite Hd. }
    unfold bind. now rewrite Hpr.
  - intros d Hd H2.
    match goal with
    | |- context [pair_resolved_entries E im' ?o ?c] =>
        assert (Hpr : pair_resolved_entries E im' o c w
                      = (Raise (KeyError "additive pairwise energy"), w))
    end.
    { unfold pair_resolved_entries. rewrite Hkw', bind_lift.
      unfold dict_index at 1. rewrite Hd, bind_lift.
      unfold subscript, dict_index. now rewrite H2. }
    unfold bind. now rewrite Hpr.
Qed.

Lemma pair_resolved_missing_data_witness :
  (compute Demo.bare (Demo.request "pbe" energy {[ "pair_resolved" := VBool true ]} ∅)
     Demo.world0).1 = Raise (KeyError "dftd4").
Proof.
  assert (Hkw : keywords (Demo.request "pbe" energy {[ "pair_resolved" := VBool true ]} ∅)
                  !! "pair_resolved" = Some (VBool true)) by reflexivity.
  assert (Hprep : (prepare Demo.bare
                     (Demo.request "pbe" energy {[ "pair_resolved" := VBool true ]} ∅)
                     Demo.world0).1
                  = Ok (Demo.request "pbe" energy {[ "pair_resolved" := VBool true ]}
                          (<["info" := VDict {[ "fctldash" := VStr "pbe-d4" ]}]> ∅)))
    by reflexivity.
  refine (proj1 (pair_resolved_missing_data Demo.bare "site-packages/dftd4/__init__.py"
                   _ _ Demo.world0 (VDict {[ "fctldash" := VStr "pbe-d4" ]}) "pbe-d4" _
                   eq_refl Hkw Hprep eq_refl eq_refl eq_refl) _).
  vm_compute. reflexivity.
Defined.

(** ** The keys of the bag *)

Lemma app_key_longer (q x k : string) :
  String.length k < String.length x -> q +:+ x <> k.
Proof.
  intros Hlt Heq. apply (f_equal String.length) in Heq. rewrite strlen_app in Heq. lia.
Qed.

Lemma slice_from_app_add (a b : string) (n : nat) :
  PyStr.slice_from (String.length a + n) (a +:+ b) = PyStr.slice_from n b.
Proof. induction a as [|c a IH]; [reflexivity | exact IH]. Qed.

Lemma endswith_app_r (a b suf : string) :
  String.length suf <= String.length b ->
  PyStr.endswith (a +:+ b) suf = PyStr.endswith b suf.
Proof.
  intros Hle. unfold PyStr.endswith. rewrite strlen_app.
  replace (String.length a + String.length b - String.length suf)
    with (String.length a + (String.length b - String.length suf)) by lia.
  rewrite slice_from_app_add.
  replace (String.length suf <=? String.length a + String.length b)%nat with true
    by (symmetry; apply Nat.leb_le; lia).
  replace (String.length suf <=? String.length b)%nat with true
    by (symmetry; apply Nat.leb_le; lia).
  reflexivity.
Qed.

Lemma base_entries_energy im output (q : string) :
  base_entries im output q !! "CURRENT ENERGY" = Some (energy_value (return_energy output)) /\
  base_entries im output q !! "DISPERSION CORRECTION ENERGY"
    = Some (energy_value (return_energy output)).
Proof.
  unfold base_entries.
  split; destruct (driver im); destruct (PyStr.nonempty q);
    repeat (rewrite lookup_insert_ne
              by (first [discriminate | apply app_key_longer; simpl; lia]));
    apply lookup_insert_eq.
Qed.

Lemma base_entries_no_gradient im output (q k : string) :
  driver im <> gradient ->
  PyStr.endswith k "GRADIENT" = true ->
  base_entries im output q !! k = None.
Proof.
  intros Hd Hk. unfold base_entries.
  assert (Hq : k <> q +:+ " DISPERSION CORRECTION ENERGY").
  { intros ->. rewrite endswith_app_r in Hk by (simpl; lia). discriminate Hk. }
  assert (H1 : k <> "CURRENT ENERGY") by (intros ->; discriminate Hk).
  assert (H2 : k <> "DISPERSION CORRECTION ENERGY") by (intros ->; discriminate Hk).
  destruct (driver im); try congruence; destruct (PyStr.nonempty q);
    repeat (rewrite lookup_insert_ne by congruence); apply lookup_empty.
Qed.

Lemma annotate_with_info (E : Env) im output w info final :
  extras im !! "info" = Some info ->
  (annotate E im output w).1 = Ok final ->
  exists (fd : string) c w',
    subscript info "fctldash" = Ok (VStr fd) /\
    pair_resolved_entries E im (merge_extras im output)
      (base_entries im (merge_extras im output) (PyStr.upper fd)) w = (Ok c, w') /\
    final = set_out_extras (merge_extras im output)
              (<["qcvars" := VDict c]> (out_extras (merge_extras im output))).
Proof.
  intros Hi Ha. unfold annotate in Ha. rewrite Hi, bind_lift in Ha.
  destruct (subscript info "fctldash") as [v|]; [|discriminate].
  rewrite bind_lift in Ha. destruct v; try discriminate. simpl in Ha.
  unfold bind in Ha.
  destruct (pair_resolved_entries E im _ _ w) as [[c|e] w'] eqn:Hpr; [|discriminate].
  simpl in Ha. injection Ha as <-. now exists s, c, w'.
Qed.

(** X16. Whenever the prepared request carries a plan and [compute] returns,
    the ["qcvars"] bag has [CURRENT ENERGY] and [DISPERSION CORRECTION ENERGY],
    both holding the returned energy ([None] when the backend gave none):
    for every driver, every plan label, with or without [pair_resolved]. *)
Theorem energy_entries_always (E : Env) (im im' : AtomicInput) (w : world)
    (info : pyval) (final : AtomicResult) :
  (prepare E im w).1 = Ok im' ->
  extras im' !! "info" = Some info ->
  (compute E im w).1 = Ok final ->
  exists c,
    out_extras final !! "qcvars" = Some (VDict c) /\
    c !! "CURRENT ENERGY" = Some (energy_value (return_energy final)) /\
    c !! "DISPERSION CORRECTION ENERGY" = Some (energy_value (return_energy final)).
Proof.
  intros Hprep Hi Hc.
  destruct (compute_ok E im w final Hc) as (im0 & output & Hprep0 & Hrun & Ha).
  rewrite Hprep in Hprep0. injection Hprep0 as <-.
  destruct (annotate_with_info E im' output w info final Hi Ha)
    as (fd & c & w' & _ & Hpr & ->).
  exists c. split; [apply lookup_insert_eq|].
  pose proof (pair_resolved_frame E _ _ _ _ _ _ Hpr) as Hfr.
  rewrite !Hfr by discriminate.
  exact (base_entries_energy im' (merge_extras im' output) (PyStr.upper fd)).
Qed.

Lemma energy_entries_always_witness :
  exists final c,
    (compute (Demo.env (-0.625)%float)
       (Demo.request "pbe" hessian {[ "pair_resolved" := VBool true ]} ∅) Demo.world0).1
      = Ok final /\
    out_extras final !! "qcvars" = Some (VDict c) /\
    c !! "CURRENT ENERGY" = Some (VFloat (-0.625)%float).
Proof.
  destruct (compute (Demo.env (-0.625)%float)
              (Demo.request "pbe" hessian {[ "pair_resolved" := VBool true ]} ∅) Demo.world0).1
    as [final|e] eqn:Hc; [|vm_compute in Hc; discriminate Hc].
  assert (Hprep : (prepare (Demo.env (-0.625)%float)
                     (Demo.request "pbe" hessian {[ "pair_resolved" := VBool true ]} ∅)
                     Demo.world0).1
                  = Ok (Demo.request "pbe" hessian {[ "pair_resolved" := VBool true ]}
                          (<["info" := VDict {[ "fctldash" := VStr "pbe-d4" ]}]> ∅)))
    by reflexivity.
  destruct (energy_entries_always (Demo.env (-0.625)%float) _ _ Demo.world0
              (VDict {[ "fctldash" := VStr "pbe-d4" ]}) final Hprep eq_refl Hc)
    as (c & Hq & He & _).
  exists final, c. split; [reflexivity|]. split; [exact Hq|].
  rewrite He. vm_compute in Hc. injection Hc as <-. reflexivity.
Defined.

(** X17. For a driver other than ["gradient"] the bag holds no gradient:
    when the prepared request carries a plan and [compute] returns, no key of
    the ["qcvars"] bag ends with [GRADIENT]. *)
Theorem no_gradient_keys (E : Env) (im im' : AtomicInput) (w : world)
    (info : pyval) (final : AtomicResult) :
  driver im <> gradient ->
  (prepare E im w).1 = Ok im' ->
  extras im' !! "info" = Some info ->
  (compute E im w).1 = Ok final ->
  exists c,
    out_extras final !! "qcvars" = Some (VDict c) /\
    forall k, PyStr.endswith k "GRADIENT" = true -> c !! k = None.
Proof.
  intros Hd Hprep Hi Hc.
  destruct (compute_ok E im w final Hc) as (im0 & output & Hprep0 & Hrun & Ha).
  rewrite Hprep in Hprep0. injection Hprep0 as <-.
  destruct (annotate_with_info E im' output w info final Hi Ha)
    as (fd & c & w' & _ & Hpr & ->).
  exists c. split; [apply lookup_insert_eq|].
  intros k Hk.
  pose proof (prepare_ok E im w im' Hprep) as (_ & _ & _ & Hdrv & _).
  rewrite (pair_resolved_frame E _ _ _ _ _ _ Hpr k);
    try (intros ->; discriminate Hk).
  apply base_entries_no_gradient; [now rewrite Hdrv | exact Hk].
Qed.

Lemma no_gradient_keys_witness :
  exists final c,
    (compute (Demo.env (-0.625)%float) (Demo.request "pbe" energy ∅ ∅) Demo.world0).1
      = Ok final /\
    out_extras final !! "qcvars" = Some (VDict c) /\
    c !! "PBE-D4 DISPERSION CORRECTION GRADIENT" = None.
Proof.
  destruct (compute (Demo.env (-0.625)%float) (Demo.request "pbe" energy ∅ ∅) Demo.world0).1
    as [final|e] eqn:Hc; [|vm_compute in Hc; discriminate Hc].
  assert (Hprep : (prepare (Demo.env (-0.625)%float) (Demo.request "pbe" energy ∅ ∅)
                     Demo.world0).1
                  = Ok (Demo.request "pbe" energy ∅
                          (<["info" := VDict {[ "fctldash" := VStr "pbe-d4" ]}]> ∅)))
    by reflexivity.
  assert (Hd : driver (Demo.request "pbe" energy ∅ ∅) <> gradient) by discriminate.
  destruct (no_gradient_keys (Demo.env (-0.625)%float) _ _ Demo.world0
              (VDict {[ "fctldash" := VStr "pbe-d4" ]}) final Hd Hprep eq_refl Hc)
    as (c & Hq & Hn).
  exists final, c. split; [reflexivity|]. split; [exact Hq|].
  apply Hn. reflexivity.
Defined.


(** * Parameter tweaks *)

Lemma resolve_plan_outcome (E : Env) im wk w :
  resolve_plan E im wk w =
    (plan_outcome
       (from_arrays E (mtd wk) (dict_get (keywords im) "level_hint")
          (param_tweaks_of im (mtd wk))
          (dict_get (keywords im) "dashcoeff_supplement")) wk,
     log w [EFromArrays (mtd wk) (dict_get (keywords im) "level_hint")
              (param_tweaks_of im (mtd wk))
              (dict_get (keywords im) "dashcoeff_supplement")]).
Proof.
  rewrite resolve_plan_eq. unfold resolver_result, resolver_call, plan_outcome. reflexivity.
Qed.

Lemma prepared_plan (E : Env) im w im' planinfo :
  resolver_result E im (mtd (strip_engine_hint im)) = Ok planinfo ->
  (prepare E im w).1 = Ok im' ->
  extras im' !! "info" = Some planinfo.
Proof.
  intros Hr Hok. apply prepare_ok in Hok as (_ & _ & _ & _ & Hx & _).
  rewrite Hx, Hr. simpl. apply lookup_insert_eq.
Qed.

Lemma compute_propagates (E : Env) (p : string) im w e :
  which_import E = Some p ->
  resolver_result E im (mtd (strip_engine_hint im)) = Raise e ->
  is_input_error e = false ->
  (compute E im w).1 = Raise e.
Proof.
  intros Hp Hr He.
  apply (delegate_calls_failed_prepare E p im w e Hp).
  rewrite (prepare_propagates E im w e); [reflexivity|].
  unfold propagated. now rewrite Hr, He.
Qed.

(** C5. The parameter tweaks handed to the resolver follow the method name.
    When the prefix-stripped method is not empty, [from_arrays] is applied to
    [None] as its [param_tweaks], whatever [keywords] holds; when it is empty,
    [from_arrays] is applied to [keywords["params_tweaks"]], or to [None] when
    there is no such entry.  In both cases this is the call that [compute]
    logs right after the probe and the call whose answer it acts on: lines
    81-92 store its plan, swallow its [InputError] or let its exception go;
    the plan is what the prepared request carries under ["info"], and the
    exception is the outcome of [compute]. *)
Theorem param_tweaks_precedence (E : Env) (p : string) (im : AtomicInput) (w : world) :
  which_import E = Some p ->
  (mtd (strip_engine_hint im) <> "" ->
     param_tweaks_of im (mtd (strip_engine_hint im)) = VNone /\
     (exists tl,
        trace (compute E im w).2 =
          (trace w ++ EFound true ::
             EFromArrays (mtd (strip_engine_hint im))
               (dict_get (keywords im) "level_hint") VNone
               (dict_get (keywords im) "dashcoeff_supplement") :: tl)%list) /\
     resolve_plan E im (strip_engine_hint im) w =
       (plan_outcome
          (from_arrays E (mtd (strip_engine_hint im))
             (dict_get (keywords im) "level_hint") VNone
             (dict_get (keywords im) "dashcoeff_supplement"))
          (strip_engine_hint im),
        log w [EFromArrays (mtd (strip_engine_hint im))
                 (dict_get (keywords im) "level_hint") VNone
                 (dict_get (keywords im) "dashcoeff_supplement")]) /\
     (forall planinfo im',
        from_arrays E (mtd (strip_engine_hint im))
          (dict_get (keywords im) "level_hint") VNone
          (dict_get (keywords im) "dashcoeff_supplement") = Ok planinfo ->
        (prepare E im w).1 = Ok im' ->
        extras im' !! "info" = Some planinfo) /\
     (forall e,
        from_arrays E (mtd (strip_engine_hint im))
          (dict_get (keywords im) "level_hint") VNone
          (dict_get (keywords im) "dashcoeff_supplement") = Raise e ->
        is_input_error e = false ->
        (compute E im w).1 = Raise e)) /\
  (mtd (strip_engine_hint im) = "" ->
     param_tweaks_of im (mtd (strip_engine_hint im))
       = default VNone (keywords im !! "params_tweaks") /\
     (exists tl,
        trace (compute E im w).2 =
          (trace w ++ EFound true ::
             EFromArrays ""
               (dict_get (keywords im) "level_hint")
               (default VNone (keywords im !! "params_tweaks"))
               (dict_get (keywords im) "dashcoeff_supplement") :: tl)%list) /\
     resolve_plan E im (strip_engine_hint im) w =
       (plan_outcome
          (from_arrays E ""
             (dict_get (keywords im) "level_hint")
             (default VNone (keywords im !! "params_tweaks"))
             (dict_get (keywords im) "dashcoeff_supplement"))
          (strip_engine_hint im),
        log w [EFromArrays ""
                 (dict_get (keywords im) "level_hint")
                 (default VNone (keywords im !! "params_tweaks"))
                 (dict_get (keywords im) "dashcoeff_supplement")]) /\
     (forall planinfo im',
        from_arrays E ""
          (dict_get (keywords im) "level_hint")
          (default VNone (keywords im !! "params_tweaks"))
          (dict_get (keywords im) "dashcoeff_supplement") = Ok planinfo ->
        (prepare E im w).1 = Ok im' ->
        extras im' !! "info" = Some planinfo) /\
     (forall e,
        from_arrays E ""
          (dict_get (keywords im) "level_hint")
          (default VNone (keywords im !! "params_tweaks"))
          (dict_get (keywords im) "dashcoeff_supplement") = Raise e ->
        is_input_error e = false ->
        (compute E im w).1 = Raise e)).
Proof.
  intros Hp. destruct (compute_trace E p im w Hp) as (tl & Htl & _).
  unfold resolver_call in Htl.
  pose proof (resolve_plan_outcome E im (strip_engine_hint im) w) as Hres.
  pose proof (prepared_plan E im w) as Hplan.
  pose proof (compute_propagates E p im w) as Hexn.
  unfold resolver_result in Hplan, Hexn.
  split; intros Hm.
  - assert (Hpt : param_tweaks_of im (mtd (strip_engine_hint im)) = VNone).
    { unfold param_tweaks_of. destruct (mtd (strip_engine_hint im)); [congruence | reflexivity]. }
    rewrite Hpt in Htl, Hres, Hplan, Hexn.
    split; [exact Hpt|]. split; [now exists tl|]. split; [exact Hres|].
    split.
    + intros planinfo im' Hr Hok. exact (Hplan im' planinfo Hr Hok).
    + intros e Hr He. exact (Hexn e Hp Hr He).
  - rewrite Hm in *.
    change (param_tweaks_of im "") with (default VNone (keywords im !! "params_tweaks")) in *.
    split; [reflexivity|]. split; [now exists tl|]. split; [exact Hres|].
    split.
    + intros planinfo im' Hr Hok. exact (Hplan im' planinfo Hr Hok).
    + intros e Hr He. exact (Hexn e Hp Hr He).
Qed.

Lemma param_tweaks_precedence_witness :
  param_tweaks_of (Demo.request "d4-pbe" energy {[ "params_tweaks" := VStr "s8" ]} ∅)
    (mtd (strip_engine_hint (Demo.request "d4-pbe" energy {[ "params_tweaks" := VStr "s8" ]} ∅)))
    = VNone /\
  param_tweaks_of (Demo.request "d4-" energy {[ "params_tweaks" := VStr "s8" ]} ∅)
    (mtd (strip_engine_hint (Demo.request "d4-" energy {[ "params_tweaks" := VStr "s8" ]} ∅)))
    = VStr "s8" /\
  (forall im',
     (prepare Demo.tweaked (Demo.request "d4-" energy {[ "params_tweaks" := VStr "s8" ]} ∅)
        Demo.world0).1 = Ok im' ->
     extras im' !! "info" = Some (VDict {[ "fctldash" := VStr ""; "tweaks" := VStr "s8" ]})).
Proof.
  destruct (param_tweaks_precedence (Demo.env 0%float) "site-packages/dftd4/__init__.py"
              (Demo.request "d4-pbe" energy {[ "params_tweaks" := VStr "s8" ]} ∅)
              Demo.world0 eq_refl) as (H1 & _).
  destruct (param_tweaks_precedence (Demo.env 0%float) "site-packages/dftd4/__init__.py"
              (Demo.request "d4-" energy {[ "params_tweaks" := VStr "s8" ]} ∅)
              Demo.world0 eq_refl) as (_ & H2).
  destruct (param_tweaks_precedence Demo.tweaked "site-packages/dftd4/__init__.py"
              (Demo.request "d4-" energy {[ "params_tweaks" := VStr "s8" ]} ∅)
              Demo.world0 eq_refl) as (_ & H3).
  split; [|split].
  - apply H1. discriminate.
  - destruct (H2 eq_refl) as (H4 & _). rewrite H4. reflexivity.
  - destruct (H3 eq_refl) as (_ & _ & _ & H5 & _).
    intros im' Hok. apply (H5 _ im'); [reflexivity | exact Hok].
Defined.


(** * Merging the extras, continued *)

(** C4 (amended). Every key of the prepared request's extras is a key of the
    extras [compute] returns.  Such a key holds the request's value in the
    final result, whether or not the backend's result had it, in two cases:
    when the key is not ["qcvars"], and when the prepared request's extras
    have no ["info"] entry.  With an ["info"] entry, ["qcvars"] holds the
    derived bag instead of any value of the request or the backend: the dict
    that lines 117-139 build from the backend's result and the plan's label,
    in which [CURRENT ENERGY] and [DISPERSION CORRECTION ENERGY] are the
    returned energy. *)
Theorem request_extras_survive (E : Env) (im im' : AtomicInput) (w : world)
    (final : AtomicResult) (key : string) (v : pyval) :
  (prepare E im w).1 = Ok im' ->
  (compute E im w).1 = Ok final ->
  extras im' !! key = Some v ->
  is_Some (out_extras final !! key) /\
  (key <> "qcvars" -> out_extras final !! key = Some v) /\
  (extras im' !! "info" = None -> out_extras final !! key = Some v) /\
  (forall info, extras im' !! "info" = Some info ->
     exists output (fd : string) c,
       run_qcschema E im' = Ok output /\
       subscript info "fctldash" = Ok (VStr fd) /\
       (pair_resolved_entries E im' (merge_extras im' output)
          (base_entries im' (merge_extras im' output) (PyStr.upper fd)) w).1 = Ok c /\
       out_extras final !! "qcvars" = Some (VDict c) /\
       c !! "CURRENT ENERGY" = Some (energy_value (return_energy final)) /\
       c !! "DISPERSION CORRECTION ENERGY" = Some (energy_value (return_energy final))).
Proof.
  intros Hprep Hc Hk.
  destruct (compute_ok E im w final Hc) as (im0 & output & Hprep0 & Hrun & Ha).
  rewrite Hprep in Hprep0. injection Hprep0 as <-.
  assert (Hm : out_extras (merge_extras im' output) !! key = Some v)
    by (unfold merge_extras; simpl; now apply lookup_union_Some_l).
  destruct (extras im' !! "info") as [info|] eqn:Hinfo.
  - destruct (annotate_with_info E im' output w info final Hinfo Ha)
      as (fd & c & w' & Hsub & Hpr & ->).
    simpl. split; [|split; [|split; [discriminate|]]].
    + destruct (decide (key = "qcvars")) as [->|Hne].
      * rewrite lookup_insert_eq. eauto.
      * rewrite lookup_insert_ne by congruence. eauto.
    + intros Hne. rewrite lookup_insert_ne by congruence. exact Hm.
    + intros info' [= <-]. exists output, fd, c.
      split; [exact Hrun|]. split; [exact Hsub|]. split; [now rewrite Hpr|].
      split; [apply lookup_insert_eq|].
      pose proof (pair_resolved_frame E _ _ _ _ _ _ Hpr) as Hfr.
      rewrite !Hfr by discriminate.
      exact (base_entries_energy im' (merge_extras im' output) (PyStr.upper fd)).
  - rewrite (annotate_no_info E im' output w Hinfo) in Ha. simpl in Ha. injection Ha as <-.
    split; [eauto|]. split; [auto|]. split; [auto|]. discriminate.
Qed.

Lemma request_extras_survive_witness :
  exists final c,
    (compute (Demo.env (-0.625)%float)
       (Demo.request "pbe" energy ∅ {[ "job" := VStr "mine"; "qcvars" := VNone ]})
       Demo.world0).1 = Ok final /\
    out_extras final !! "job" = Some (VStr "mine") /\
    out_extras final !! "qcvars" = Some (VDict c) /\
    c !! "CURRENT ENERGY" = Some (VFloat (-0.625)%float).
Proof.
  destruct (compute (Demo.env (-0.625)%float)
              (Demo.request "pbe" energy ∅ {[ "job" := VStr "mine"; "qcvars" := VNone ]})
              Demo.world0).1
    as [final|e] eqn:Hc; [|vm_compute in Hc; discriminate Hc].
  assert (Hprep : (prepare (Demo.env (-0.625)%float)
                     (Demo.request "pbe" energy ∅ {[ "job" := VStr "mine"; "qcvars" := VNone ]})
                     Demo.world0).1
                  = Ok (Demo.request "pbe" energy ∅
                          (<["info" := VDict {[ "fctldash" := VStr "pbe-d4" ]}]>
                             {[ "job" := VStr "mine"; "qcvars" := VNone ]})))
    by reflexivity.
  assert (Hk : extras (Demo.request "pbe" energy ∅
                         (<["info" := VDict {[ "fctldash" := VStr "pbe-d4" ]}]>
                            {[ "job" := VStr "mine"; "qcvars" := VNone ]})) !! "job"
               = Some (VStr "mine"))
    by reflexivity.
  assert (Hi : extras (Demo.request "pbe" energy ∅
                         (<["info" := VDict {[ "fctldash" := VStr "pbe-d4" ]}]>
                            {[ "job" := VStr "mine"; "qcvars" := VNone ]})) !! "info"
               = Some (VDict {[ "fctldash" := VStr "pbe-d4" ]}))
    by reflexivity.
  destruct (request_extras_survive (Demo.env (-0.625)%float) _ _ Demo.world0 final
              "job" (VStr "mine") Hprep Hc Hk) as (_ & Hv & _ & Hq).
  destruct (Hq _ Hi) as (output & fd & c & _ & _ & _ & Hqc & He & _).
  exists final, c. split; [reflexivity|].
  split; [apply Hv; discriminate|]. split; [exact Hqc|].
  rewrite He. vm_compute in Hc. injection Hc as <-. reflexivity.
Defined.


(** * Case sensitivity *)











